(* ===== verification/_CoqProject ===== *)
-Q . S2P
Prelude.v
PyStr.v
PyValue.v
PyRuntime.v
Config.v
Fixtures.v
Telegram.v
Extractor.v
Handler.v
Phases.v
Ledger.v
Threads.v
Rate.v
Server.v
App.v
Cors.v
