(* ===== verification/Prelude.v ===== *)
(** * A verification development of the video relay backend ([src/main.py])

    ** The program

    [src/main.py] is a FastAPI service.  [POST /process-video] receives
    [{url, format_type}], downloads the media with yt-dlp, uploads the file
    to a Telegram chat with the Bot API, deletes the local copy, schedules a
    background task that deletes the Telegram message 60 seconds later, and
    answers a JSON dict that always has HTTP status 200 and a ["status"]
    field.  [GET /health] answers a constant dict.  Its parts, leaves first,
    and how they call each other:
    - configuration (lines 13-16): [BOT_TOKEN], [CHAT_ID] from the
      environment and the two Bot API base URLs derived from the token;
    - the Extractor Adapter (lines 75-97, inline in [process_video]): the
      yt-dlp option dict per [format_type], [extract_info], the file name
      from [prepare_filename] and its [.mp3] rewrite for audio;
    - the Relay Uploader [upload_to_telegram] (lines 46-63): [sendDocument],
      the status check, [getFile], the download URL;
    - the Deferred Cleanup [delete_telegram_message] (lines 36-44): sleep
      60 s, [deleteMessage], every exception logged;
    - the Request Handler [process_video] (lines 69-119) calls the three
      above in sequence inside one [try/except Exception], and
      [health_check] (lines 65-67);
    - the application object (line 18) with Starlette's CORS middleware
      (lines 21-27: every origin, method and header, credentials
      allowed) around the routes, and the logging setup (lines 29-30:
      records of level INFO and above);
    - FastAPI and uvicorn (not in the repository): the route decorators of
      lines 65 and 69, the validation of the body against the pydantic
      model [VideoRequest] (lines 32-34, HTTP 422 when it fails); the
      response is sent, then the request's background tasks run in a
      threadpool thread while the event loop serves the next requests.

    ** The library, file by file

    - [Prelude] (this file): the scope [py_scope], the hint databases
      [pystr] and [pyrt], shared tactics, lemmas on strings.
    - [PyStr]: [str.rsplit(c, 1)] (with its join round trip), [str.split],
      [str.join] and the reference [rsplit1_ref] that [rsplit] is proved
      equal to, [c in s], [str.endswith].
    - [PyValue]: Python values ([pyval]: None, bool, int, str, list,
      insertion-ordered dict), exceptions ([pyexc]) with [str(e)]; dict
      subscript with [KeyError]/[TypeError], [get], [d[k] = v], [update]
      (unique keys preserved), [repr]/[str]; a nested induction principle
      and decidable equality ([EqDecision]) of values and exceptions.
    - [PyRuntime]: the [World] (working directory as a [gset], clock, trace
      of HTTP requests, log lines and responses, the request's
      [BackgroundTasks] list); the state and exception monad [Py] as stdpp
      [MRet]/[MBind] instances, [try_except]; the library calls ([open],
      [os.path.exists], [os.remove], [time.sleep], [requests], [logger]
      with the level filter of lines 29-30, [logger_log]);
      the interfaces to the external services, type classes
      [HttpTransport] (the Bot API answering a request given the history)
      and [YoutubeDL]; the class [Preserves R c] of frame properties
      (time moves forward and the trace only grows, the working directory
      or the task list untouched), proved for whole functions by instance
      search; the symbolic-execution tactic [py_run].
    - [Config]: [config], [load_config], [TELEGRAM_API_URL],
      [TELEGRAM_FILE_URL].
    - [Fixtures]: a concrete Bot API server and yt-dlp (instances of the
      two classes) on which the witnesses run the program.
    - [Telegram] (module [Telegram]): [upload_to_telegram] with its
      requests, [delete_message_now] (lines 39-44), [grace_period]
      (line 38), [delete_telegram_message].
    - [Extractor]: [ydl_opts_for], [mp3_filename], [download_media], and
      the specification's table of profiles (§4.1) as the abstract
      contract [opts_meet].
    - [Handler]: [VideoRequest], [cleanup_and_respond] (lines 102-115),
      [process_video], [health_check]; the contract of §4.4 as the
      inductive relation [handler_contract], the response envelope of §6
      as the typing judgement [envelope_type].
    - [Phases]: [process_video] cut at its own HTTP requests into four
      phases (extraction, [sendDocument], [getFile], cleanup), each inside
      the [try] of line 71; [upload_to_telegram] split into
      [upload_send] (lines 48-57) and [upload_resolve] (lines 60-63);
      [run_phases_process_video]: the phases in sequence are
      [process_video], so that [Threads] runs the code's handler.
    - [Ledger]: the record of the background work shared by the
      concurrency invariants: the deletions sent for a request
      ([deleted_of]) and the ledger [ledger_ok] tying the tasks each
      handler scheduled to those sent and those left.
    - [Threads]: many requests: the event loop runs one handler at a
      time phase by phase, and between its phases the deletion threads
      act and the clock moves; each deletion task waits for one of
      anyio's 40 thread tokens ([thread_pool_size]), sleeps, sends and
      gives the token back.
    - [Rate]: the rate of the deletions in [Threads]: each holds a token
      through its sleep, so the pool bounds them per window of 60 s.
    - [Server]: one request through FastAPI: fresh task list, handler,
      response, tasks.
    - [App]: the HTTP surface: [handle] routes a request (lines 65 and 69,
      404 and 405 otherwise) and validates the body of
      [POST /process-video] against [VideoRequest] ([validate_video_request],
      pydantic's errors answered 422) before [Server.serve_process_video];
      the request method is the ASGI scope's string.
    - [Cors]: the settings of lines 21-27 ([app_cors]) and Starlette's
      [CORSMiddleware] around [App.handle] ([cors_app], [asgi_app]): the
      preflight answered by the middleware, the headers added to the
      other responses.

    ** What the theorems show

    - end to end ([Server.serve_process_video_spec]): the handler never
      raises, its answer meets the §4.4 contract, and after the response
      the only requests are one [deleteMessage] per scheduled task, at
      least 60 s after the response;
    - the answers ([Handler.process_video_envelope],
      [App.handle_process_video_status]): the handler never raises and
      always answers the envelope of §6, with at most one task;
      [POST /process-video] answers 200 exactly when the body validates
      and 422 otherwise (the specification says 200 always);
    - many requests ([Threads.threads_grace_period],
      [Threads.threads_deletions_follow_schedule],
      [Threads.threads_all_deletions_sent], invariants by rule induction
      over the steps and liveness by building a schedule): with the
      handler's phases interleaved with the deletion threads and the
      pool, every deletion is sent at least 60 s after the response of
      the request that scheduled it, no request gets more than the one
      deletion its handler scheduled, and every run can be completed so
      that each scheduled deletion is sent exactly once;
      [Rate.deletions_per_minute]: the pool lets at most 40 deletions
      through in any window of 60 seconds, so under load a message stays
      longer than the minute the code intends;
    - CORS ([Cors.cors_preflight_permits_all],
      [Cors.cors_simple_transparent]): a preflight from any origin for
      any of the seven standard methods is answered 200 with that origin
      and the credentials allowed, without running the application;
      every other request gets exactly the routes' answer and world, with
      the CORS headers added, the request's own origin echoed when it
      carries a cookie;
    - the handler's branches: success (title and thumbnail defaults, file
      removed, one task), extraction failure (error dict, nothing sent to
      Telegram), upload failure (error dict, no task, the local file left
      on disk), a failure of [getFile] after [sendDocument]
      ([Server.serve_orphans_document]: over the whole request cycle the
      posted document is never deleted);
    - the uploader's branches: success (two requests in order, the file
      URL), non-200 status, missing file, unchecked [getFile];
    - the cleanup: never raises, one request at +60 s, logs success even
      for a refused deletion;
    - the extractor: the option dict refines the profile table and falls
      back to 480p for any other [format_type]; the [.mp3] rename never
      raises, always ends in [.mp3] and maps [id.ext] to [id.mp3]; under yt-dlp's
      documented naming the uploaded name is the file written;
    - the request body: pydantic's validation accepts exactly the objects
      whose two fields are strings (other keys ignored).
    Findings are recorded with the theorems that show them.

    ** Bounds and fuel

    No fuel is needed: every function of [src/main.py] is straight-line
    code; the recursions ([Server.run_tasks], [PyStr.split], the dict
    operations) are structural.  Time is a [Z] clock in seconds
    ([time.sleep] takes a [nat]); liveness is proved by building the steps
    (tick to the end of the sleep, then fire), by well-founded induction
    on the number of pending deletions (a taken thread fires, or a token
    is free), and a handler run finishes within four phases (the measure
    [Phases.frame_rank]).  Python integers are unbounded, so message
    ids are [Z] with no wrap.

    ** Not modelled, and why

    The imports (lines 1-10); the headers of the application's own
    responses ([content-type], [content-length], [allow]), which the
    CORS middleware neither reads nor sets; the log handler's format and
    stream (the trace keeps level, time and message); the internals
    of yt-dlp and of the Bot API (interfaces, out of scope by the
    specification); file contents, multipart encoding, JSON text and
    floats (no code reads them: a request body is the value it decodes
    to); the [YoutubeDL] context manager's construction and exit and an
    exception of [prepare_filename] (yt-dlp's internals: [extract_info]
    carries the library's failures); [os.remove] failing for another
    reason than a missing file (a permission error: the working
    directory is the process's own).  The one-at-a-time event loop and
    anyio's bound of 40 threads are how the runtime runs the code, built
    into the steps of [Threads], not theorems about the code; token
    acquire and release are not tied to the event loop, which only adds
    schedules.  The concurrency of [Threads] interleaves the threads with the
    handler at the handler's HTTP requests, the finest grain the Bot API
    can observe; the order of a log line and a thread's request inside
    one phase is not distinguished, and the scheduler is left free
    (anyio's first-come order of threads waiting for a token is one of
    the schedules covered). *)

From stdpp Require Export base strings list gmap pretty.
From Stdlib Require Export ZArith Lia Ascii.

Declare Scope py_scope.
Delimit Scope py_scope with py.
Open Scope Z_scope.

(** ** Strings *)

Lemma str_app_nil_l (s : string) : "" +:+ s = s.
Proof. reflexivity. Qed.

Lemma str_app_nil_r (s : string) : s +:+ "" = s.
Proof. induction s as [|a s IH]; [done|]. cbv [String.append]. fold String.append. by rewrite IH. Qed.

Lemma str_app_cons (a : Ascii.ascii) (s1 s2 : string) :
  String a s1 +:+ s2 = String a (s1 +:+ s2).
Proof. reflexivity. Qed.

Lemma str_app_assoc (s1 s2 s3 : string) : s1 +:+ (s2 +:+ s3) = (s1 +:+ s2) +:+ s3.
Proof. induction s1 as [|a s1 IH]; [done|]. rewrite !str_app_cons. by rewrite IH. Qed.

Lemma str_length_app (s1 s2 : string) :
  String.length (s1 +:+ s2) = (String.length s1 + String.length s2)%nat.
Proof. induction s1 as [|a s1 IH]; [done|]. rewrite str_app_cons. simpl. by rewrite IH. Qed.

Create HintDb pystr.
Create Rewrite HintDb pystr.
#[export] Hint Rewrite str_app_nil_r str_app_cons : pystr.
#[export] Hint Rewrite <- str_app_assoc : pystr.

Create HintDb pyrt.
Create Rewrite HintDb pyrt.

(** stdpp's solvers clear hypotheses that may be absent. *)
#[export] Set Warnings "-clear-no-such-hyp".

(** ** Invariants of a step relation *)

(** A property that holds initially and that every step keeps holds in
    every state reachable by steps. *)
Lemma rtc_invariant {A} (R : relation A) (P : A → Prop) x y :
  (∀ a b, R a b → P a → P b) → P x → rtc R x y → P y.
Proof. intros Hstep Hx Hr. induction Hr; eauto. Qed.

(** ** Tactics *)

(** [case_match_eqn]: destruct the innermost [match] of the goal, keeping
    the equation. *)
Ltac case_match_eqn :=
  match goal with
  | |- context [match ?x with _ => _ end] =>
      let E := fresh "E" in destruct x eqn:E
  end.
