(* ===== verification/PyStr.v ===== *)
(** * Python string operations used by [src/main.py]

    [str.rsplit(sep, 1)] for a one-character separator (line 97 calls
    [filename.rsplit(".", 1)]), the membership test [c in s] it depends
    on, and [str.endswith]; [str.split] and [str.join], from which the
    reference [rsplit1_ref] ([[c.join(parts[:-1]), parts[-1]]]) is built
    and proved equal to [rsplit1].  Python strings are modelled as Rocq [string]s
    of ASCII characters. *)

From S2P Require Import Prelude.

Module PyStr.

(** [c in s] for a character [c]. *)
Fixpoint has_char (c : Ascii.ascii) (s : string) : bool :=
  match s with
  | EmptyString => false
  | String a s' => Ascii.eqb a c || has_char c s'
  end.

(** Split at the last occurrence of [c]: [Some (head, tail)] with
    [s = head ++ c ++ tail], or [None] when [c] does not occur. *)
Fixpoint split_last (c : Ascii.ascii) (s : string) : option (string * string) :=
  match s with
  | EmptyString => None
  | String a s' =>
      match split_last c s' with
      | Some (l, r) => Some (String a l, r)
      | None => if Ascii.eqb a c then Some (EmptyString, s') else None
      end
  end.

(** [s.rsplit(c, 1)]: the list Python returns, of one or two pieces. *)
Definition rsplit1 (c : Ascii.ascii) (s : string) : list string :=
  match split_last c s with
  | Some (l, r) => [l; r]
  | None => [s]
  end.

(** [s.split(c)]: the pieces between the occurrences of [c], at least one. *)
Fixpoint split (c : Ascii.ascii) (s : string) : list string :=
  match s with
  | EmptyString => [EmptyString]
  | String a s' =>
      match split c s' with
      | [] => [String a EmptyString]
      | p :: ps => if Ascii.eqb a c then EmptyString :: p :: ps else String a p :: ps
      end
  end.

(** [c.join(ps)]. *)
Fixpoint join (c : Ascii.ascii) (ps : list string) : string :=
  match ps with
  | [] => EmptyString
  | [p] => p
  | p :: ps' => p +:+ String c (join c ps')
  end.

(** The reference for [rsplit(c, 1)]: split at every [c], then join
    all pieces but the last ([[c.join(parts[:-1]), parts[-1]]]), or the
    one piece when there is one. *)
Definition rsplit1_ref (c : Ascii.ascii) (s : string) : list string :=
  let parts := split c s in
  if bool_decide (length parts ≤ 1)%nat then parts
  else [join c (removelast parts); default EmptyString (last parts)].

(** [s.endswith(suffix)]. *)
Definition endswith (s suffix : string) : Prop := ∃ p, s = p +:+ suffix.

(** ** Lemmas *)

Lemma has_char_app c s1 s2 :
  has_char c (s1 +:+ s2) = has_char c s1 || has_char c s2.
Proof.
  induction s1 as [|a s1 IH]; [done|].
  rewrite str_app_cons. simpl. rewrite IH. by destruct (Ascii.eqb a c).
Qed.

Lemma split_last_none c s : split_last c s = None ↔ has_char c s = false.
Proof.
  induction s as [|a s IH]; [done|]. simpl.
  destruct (split_last c s) as [[l r]|].
  - destruct (has_char c s), (Ascii.eqb a c); naive_solver.
  - destruct (Ascii.eqb a c); naive_solver.
Qed.

Lemma split_last_some c s l r :
  split_last c s = Some (l, r) → s = l +:+ String c r ∧ has_char c r = false.
Proof.
  revert l r. induction s as [|a s IH]; intros l r; [done|]. simpl.
  destruct (split_last c s) as [[l' r']|] eqn:E.
  - intros [= <- <-]. destruct (IH _ _ eq_refl) as [-> Hr]. done.
  - destruct (Ascii.eqb_spec a c) as [->|]; [|done].
    intros [= <- <-]. split; [done|]. by apply split_last_none.
Qed.

Lemma split_last_join c l r :
  has_char c r = false → split_last c (l +:+ String c r) = Some (l, r).
Proof.
  intros Hr. induction l as [|a l IH]; simpl.
  - apply split_last_none in Hr. rewrite Hr, Ascii.eqb_refl. done.
  - by rewrite IH.
Qed.

#[export] Hint Resolve split_last_join : pystr.

Lemma split_cons c s : ∃ p ps, split c s = p :: ps.
Proof.
  induction s as [|a s (p & ps & IH)]; [by eexists _, _|]. simpl. rewrite IH.
  destruct (Ascii.eqb a c); eauto.
Qed.

Lemma split_no_char c s : has_char c s = false → split c s = [s].
Proof.
  induction s as [|a s IH]; [done|]. simpl. intros [Ha Hs]%orb_false_iff.
  rewrite IH, Ha by done. done.
Qed.

Lemma split_app_sep c l r : split c (l +:+ String c r) = split c l ++ split c r.
Proof.
  induction l as [|a l IH]; simpl.
  - rewrite Ascii.eqb_refl. destruct (split_cons c r) as (p & ps & ->). done.
  - rewrite IH. destruct (split_cons c l) as (p & ps & ->). simpl. by destruct (Ascii.eqb a c).
Qed.

Lemma join_cons2 c p q ps : join c (p :: q :: ps) = p +:+ String c (join c (q :: ps)).
Proof. reflexivity. Qed.

(** [c.join(s.split(c)) == s]. *)
Lemma join_split c s : join c (split c s) = s.
Proof.
  induction s as [|a s IH]; [done|]. simpl.
  destruct (split_cons c s) as (p & ps & Hs). rewrite Hs in IH |- *.
  destruct (Ascii.eqb_spec a c) as [->|Hne].
  - rewrite join_cons2, IH. reflexivity.
  - destruct ps as [|q ps]; simpl in IH |- *; [by rewrite IH|].
    rewrite <- IH. reflexivity.
Qed.

Lemma split_single c s : (length (split c s) ≤ 1)%nat → split c s = [s].
Proof.
  intros Hl. pose proof (join_split c s) as Hj.
  destruct (split_cons c s) as (p & [|q ps] & Hs); rewrite Hs in Hj, Hl |- *; simpl in *; [by subst|lia].
Qed.

(** [s.rsplit(c, 1)] is [s.split(c)] with all pieces but the last joined
    back: the one piece when [c] does not occur. *)
Lemma rsplit1_split c s : rsplit1 c s = rsplit1_ref c s.
Proof.
  unfold rsplit1, rsplit1_ref. destruct (split_last c s) as [[l r]|] eqn:E.
  - apply split_last_some in E as [-> Hr].
    rewrite split_app_sep, (split_no_char c r Hr).
    destruct (split_cons c l) as (p & ps & Hl).
    rewrite bool_decide_false by (rewrite Hl, length_app; simpl; lia).
    by rewrite removelast_last, last_snoc, join_split.
  - apply split_last_none in E. rewrite split_no_char by done.
    by rewrite bool_decide_true by (simpl; lia).
Qed.

(** ** Properties *)

(** [rsplit(c, 1)] returns one piece or two: indexing it with [0] never
    raises [IndexError]. *)
Lemma rsplit1_length c s :
  length (rsplit1 c s) = 1%nat ∨ length (rsplit1 c s) = 2%nat.
Proof. unfold rsplit1. destruct (split_last c s) as [[]|]; auto. Qed.

(** Functional behaviour of [rsplit(c, 1)], on both branches: with no [c]
    the list is [[s]]; otherwise [s] is the join of the two pieces and the
    second piece contains no [c] (the split is at the last [c]). *)
Lemma rsplit1_spec c s :
  (rsplit1 c s = [s] ∧ has_char c s = false) ∨
  (∃ l r, rsplit1 c s = [l; r] ∧ s = l +:+ String c r ∧ has_char c r = false).
Proof.
  unfold rsplit1. destruct (split_last c s) as [[l r]|] eqn:E.
  - right. exists l, r. split; [done|]. by apply split_last_some.
  - left. split; [done|]. by apply split_last_none.
Qed.

(** Round trip: splitting a join whose tail has no separator gives the
    pieces back, whatever the head contains. *)
Lemma rsplit1_join c l r :
  has_char c r = false → rsplit1 c (l +:+ String c r) = [l; r].
Proof. intros Hr. unfold rsplit1. by rewrite split_last_join. Qed.

Lemma endswith_app s suffix : endswith (s +:+ suffix) suffix.
Proof. by exists s. Qed.

#[export] Hint Resolve endswith_app : pystr.

End PyStr.
