(* ===== verification/PyValue.v ===== *)
(** * Python values, dicts and exceptions

    The values [src/main.py] handles: the dict yt-dlp returns from
    [extract_info], the dicts [response.json()] returns, the option dict
    [ydl_opts], and the response dicts of the endpoints.  A dict is an
    association list in insertion order (Python dicts are ordered, and the
    order is the order of the JSON the endpoints emit); its keys are
    strings, as every dict of the program has.  Floats are not modelled:
    no float is read by the code.

    Dict operations follow CPython: [d[k]] raises [KeyError(k)] on a
    missing key and [TypeError] on a value that is not a dict; [d.get(k,
    dflt)] raises [AttributeError] on a value that is not a dict;
    [d[k] = v] replaces the value in place or appends the key; [d.update]
    assigns the pairs in order.  Exceptions carry what [str(e)] prints. *)

From S2P Require Import Prelude.

Module PyValue.

#[local] Set Warnings "-register-all".

Inductive pyval :=
| PNone
| PBool (b : bool)
| PInt (z : Z)
| PStr (s : string)
| PList (xs : list pyval)
| PDict (kvs : list (string * pyval)).

(** The Python exceptions the program can raise or catch. *)
Inductive pyexc :=
| Exception (msg : string)
| KeyError (key : pyval)
| TypeError (msg : string)
| AttributeError (msg : string)
| IndexError (msg : string)
| FileNotFoundError (filename : string)
| RequestException (msg : string)
| JSONDecodeError (msg : string)
| DownloadError (msg : string).

(** The result of a computation that may raise. *)
Inductive outcome (A : Type) :=
| Ok (a : A)
| Raise (e : pyexc).
Arguments Ok {A} a.
Arguments Raise {A} e.

(** ** Equality of values

    [pyval] nests lists of values, so its induction principle and its
    equality test go through the lists with inner fixpoints. *)

Section pyval_rect.
Variable P : pyval → Prop.
Hypothesis HNone : P PNone.
Hypothesis HBool : ∀ b, P (PBool b).
Hypothesis HInt : ∀ z, P (PInt z).
Hypothesis HStr : ∀ s, P (PStr s).
Hypothesis HList : ∀ xs, Forall P xs → P (PList xs).
Hypothesis HDict : ∀ kvs, Forall (λ kv, P kv.2) kvs → P (PDict kvs).

Fixpoint pyval_ind' (v : pyval) : P v :=
  match v with
  | PNone => HNone
  | PBool b => HBool b
  | PInt z => HInt z
  | PStr s => HStr s
  | PList xs =>
      HList xs ((fix go xs : Forall P xs :=
                   match xs with
                   | [] => List.Forall_nil _
                   | x :: xs' => List.Forall_cons _ _ _ (pyval_ind' x) (go xs')
                   end) xs)
  | PDict kvs =>
      HDict kvs ((fix go kvs : Forall (λ kv, P kv.2) kvs :=
                    match kvs with
                    | [] => List.Forall_nil _
                    | kv :: kvs' => List.Forall_cons _ _ _ (pyval_ind' kv.2) (go kvs')
                    end) kvs)
  end.
End pyval_rect.

(** [v1 == v2] on the values the program builds (no floats, so
    structural). *)
Fixpoint pyval_eqb (v1 v2 : pyval) : bool :=
  match v1, v2 with
  | PNone, PNone => true
  | PBool a, PBool b => Bool.eqb a b
  | PInt a, PInt b => Z.eqb a b
  | PStr a, PStr b => String.eqb a b
  | PList xs, PList ys =>
      (fix go xs ys :=
         match xs, ys with
         | [], [] => true
         | x :: xs', y :: ys' => pyval_eqb x y && go xs' ys'
         | _, _ => false
         end) xs ys
  | PDict xs, PDict ys =>
      (fix go xs ys :=
         match xs, ys with
         | [], [] => true
         | (k, x) :: xs', (l, y) :: ys' => String.eqb k l && pyval_eqb x y && go xs' ys'
         | _, _ => false
         end) xs ys
  | _, _ => false
  end.

Lemma pyval_eqb_spec v1 v2 : pyval_eqb v1 v2 = true ↔ v1 = v2.
Proof.
  revert v2. induction v1 as [|b|z|s|xs IH|kvs IH] using pyval_ind'; intros [|b'|z'|s'|ys|kvs'];
    simpl; try (split; congruence).
  - rewrite Bool.eqb_true_iff. naive_solver.
  - rewrite Z.eqb_eq. naive_solver.
  - rewrite String.eqb_eq. naive_solver.
  - revert ys. induction IH as [|x xs Hx _ IHxs]; intros [|y ys]; simpl; try (split; congruence).
    rewrite andb_true_iff, Hx, IHxs. naive_solver.
  - revert kvs'. induction IH as [|[k x] kvs Hx _ IHkvs]; intros [|[l y] kvs']; simpl;
      try (split; congruence).
    rewrite !andb_true_iff, String.eqb_eq, Hx, IHkvs. naive_solver.
Qed.

#[export] Instance pyval_eq_dec : EqDecision pyval.
Proof.
  intros v1 v2. destruct (pyval_eqb v1 v2) eqn:E; [left|right].
  - by apply pyval_eqb_spec.
  - intros Heq%pyval_eqb_spec. congruence.
Defined.

#[export] Instance pyexc_eq_dec : EqDecision pyexc.
Proof. solve_decision. Defined.

#[export] Instance outcome_eq_dec `{EqDecision A} : EqDecision (outcome A).
Proof. solve_decision. Defined.

(** [type(v).__name__]. *)
Definition type_name (v : pyval) : string :=
  match v with
  | PNone => "NoneType"
  | PBool _ => "bool"
  | PInt _ => "int"
  | PStr _ => "str"
  | PList _ => "list"
  | PDict _ => "dict"
  end.

(** [repr(v)] (strings without quote or backslash characters). *)
Fixpoint py_repr (v : pyval) : string :=
  match v with
  | PNone => "None"
  | PBool true => "True"
  | PBool false => "False"
  | PInt z => pretty z
  | PStr s => "'" +:+ s +:+ "'"
  | PList xs => "[" +:+ String.concat ", " (map py_repr xs) +:+ "]"
  | PDict kvs =>
      "{" +:+ String.concat ", "
                (map (λ kv, "'" +:+ kv.1 +:+ "': " +:+ py_repr kv.2) kvs) +:+ "}"
  end.

(** [str(v)], also what an f-string prints for [{v}]. *)
Definition py_str (v : pyval) : string :=
  match v with
  | PStr s => s
  | _ => py_repr v
  end.

(** [str(e)] for an exception [e]. *)
Definition str_exc (e : pyexc) : string :=
  match e with
  | Exception m | TypeError m | AttributeError m | IndexError m
  | RequestException m | JSONDecodeError m | DownloadError m => m
  | KeyError k => py_repr k
  | FileNotFoundError f =>
      "[Errno 2] No such file or directory: " +:+ py_repr (PStr f)
  end.

(** [xs[i]] for [i >= 0]. *)
Definition py_index {A} (xs : list A) (i : nat) : outcome A :=
  match xs !! i with
  | Some x => Ok x
  | None => Raise (IndexError "list index out of range")
  end.

(** An [Optional[str]] as a Python value. *)
Definition opt_str (o : option string) : pyval :=
  match o with
  | Some s => PStr s
  | None => PNone
  end.

(** ** Dicts *)

(** The value of the first binding of [k]. *)
Fixpoint dict_lookup (k : string) (kvs : list (string * pyval)) : option pyval :=
  match kvs with
  | [] => None
  | (k', v) :: kvs' => if String.eqb k' k then Some v else dict_lookup k kvs'
  end.

(** [d[k]]. *)
Definition getitem (d : pyval) (k : string) : outcome pyval :=
  match d with
  | PDict kvs =>
      match dict_lookup k kvs with
      | Some v => Ok v
      | None => Raise (KeyError (PStr k))
      end
  | PList _ => Raise (TypeError "list indices must be integers or slices, not str")
  | PStr _ => Raise (TypeError "string indices must be integers, not 'str'")
  | _ => Raise (TypeError ("'" +:+ type_name d +:+ "' object is not subscriptable"))
  end.

(** [d.get(k, dflt)]. *)
Definition dict_get (d : pyval) (k : string) (dflt : pyval) : outcome pyval :=
  match d with
  | PDict kvs => Ok (default dflt (dict_lookup k kvs))
  | _ => Raise (AttributeError ("'" +:+ type_name d +:+ "' object has no attribute 'get'"))
  end.

(** [d[k] = v]: replace the first binding in place, or append. *)
Fixpoint dict_set (k : string) (v : pyval) (kvs : list (string * pyval))
    : list (string * pyval) :=
  match kvs with
  | [] => [(k, v)]
  | (k', v') :: kvs' =>
      if String.eqb k' k then (k', v) :: kvs' else (k', v') :: dict_set k v kvs'
  end.

(** [d.update(new)]: the pairs of [new] assigned in order. *)
Definition dict_update (kvs new : list (string * pyval)) : list (string * pyval) :=
  fold_left (λ acc kv, dict_set kv.1 kv.2 acc) new kvs.

(** A well-formed dict has each key once. *)
Definition dict_wf (kvs : list (string * pyval)) : Prop := NoDup kvs.*1.

(** ** Dict lemmas *)

Lemma dict_lookup_set_eq k v kvs : dict_lookup k (dict_set k v kvs) = Some v.
Proof.
  induction kvs as [|[k' v'] kvs IH]; simpl; [by rewrite String.eqb_refl|].
  destruct (String.eqb_spec k' k) as [->|]; simpl.
  - by rewrite String.eqb_refl.
  - destruct (String.eqb_spec k' k); [done|]. exact IH.
Qed.

Lemma dict_lookup_set_ne k k2 v kvs :
  k ≠ k2 → dict_lookup k2 (dict_set k v kvs) = dict_lookup k2 kvs.
Proof.
  intros Hne. induction kvs as [|[k' v'] kvs IH]; simpl.
  - destruct (String.eqb_spec k k2); [done|]. reflexivity.
  - destruct (String.eqb_spec k' k) as [->|]; simpl.
    + destruct (String.eqb_spec k k2); done.
    + by rewrite IH.
Qed.

Lemma dict_set_keys k v kvs :
  (dict_set k v kvs).*1 = if decide (k ∈ kvs.*1) then kvs.*1 else kvs.*1 ++ [k].
Proof.
  induction kvs as [|[k' v'] kvs IH]; [done|].
  cbn [dict_set]. rewrite fmap_cons. simpl fst.
  destruct (String.eqb_spec k' k) as [->|Hne].
  - rewrite fmap_cons, decide_True; [done|]. set_solver.
  - rewrite fmap_cons, IH. simpl fst. destruct (decide (k ∈ kvs.*1)).
    + rewrite decide_True; [done|]. set_solver.
    + rewrite decide_False; [done|]. set_solver.
Qed.

Lemma dict_set_wf k v kvs : dict_wf kvs → dict_wf (dict_set k v kvs).
Proof.
  unfold dict_wf. intros H. rewrite dict_set_keys. case_decide; [done|].
  apply NoDup_app. split; [done|]. split; [set_solver|]. apply NoDup_singleton.
Qed.

#[export] Hint Resolve dict_set_wf : pyrt.
#[export] Hint Rewrite dict_lookup_set_eq : pyrt.

(** ** Properties *)

(** [d[k]] on every branch: it returns the value bound to [k] in a dict,
    raises [KeyError(k)] for a dict without [k], and [TypeError] for a
    value that is not a dict. *)
Lemma getitem_cases d k :
  (∃ kvs v, d = PDict kvs ∧ dict_lookup k kvs = Some v ∧ getitem d k = Ok v) ∨
  (∃ kvs, d = PDict kvs ∧ dict_lookup k kvs = None ∧ getitem d k = Raise (KeyError (PStr k))) ∨
  ((∀ kvs, d ≠ PDict kvs) ∧ ∃ msg, getitem d k = Raise (TypeError msg)).
Proof.
  destruct d as [| | | | |kvs]; try (right; right; split; [done|eexists; reflexivity]).
  simpl. destruct (dict_lookup k kvs) eqn:E; [left|right; left]; eauto.
Qed.

(** Insert/lookup round trip for [d[k] = v]: the key reads back [v] and
    every other key reads what it read before. *)
Lemma dict_set_lookup k v kvs k2 :
  dict_lookup k2 (dict_set k v kvs) = if String.eqb k k2 then Some v else dict_lookup k2 kvs.
Proof.
  destruct (String.eqb_spec k k2) as [<-|Hne].
  - apply dict_lookup_set_eq.
  - by apply dict_lookup_set_ne.
Qed.

(** [d.update(new)] keeps a dict well formed: each key stays bound once. *)
Lemma dict_update_wf kvs new : dict_wf kvs → dict_wf (dict_update kvs new).
Proof.
  unfold dict_update. revert kvs.
  induction new as [|[k v] new IH]; intros kvs H; simpl; [done|].
  apply IH. by apply dict_set_wf.
Qed.

End PyValue.
