(* ===== verification/PyRuntime.v ===== *)
(** * The Python runtime the program runs on

    The state a run of [src/main.py] changes or observes ([World]): the
    files of the working directory (yt-dlp writes there, line 104 removes),
    the clock (line 38 sleeps), the trace of what the process did that
    others can see (HTTP requests sent, log lines, responses), and the
    [BackgroundTasks] list of the request being handled (line 108).

    Code runs in [Py], a state and exception monad: a computation maps a
    world to an [outcome] (a value or a raised exception) and the world
    after it.  Effects already performed stay when an exception is raised,
    as in Python.  [try_except] is [try: ... except Exception as e: ...].

    The two external collaborators are interfaces:
    - [HttpTransport]: the HTTP server at the other end of [requests]
      (the Telegram Bot API).  It answers a request given the world, so it
      may depend on every request sent before (the chat's state is a
      function of that history);
    - [YoutubeDL]: yt-dlp's [extract_info(url, download=True)] (the info
      dict, or an exception, and the files it wrote) and
      [prepare_filename(info)].
    Their behaviour is the library's, not this repository's; the theorems
    about the handler hold for every instance. *)

From S2P Require Import Prelude PyValue.

Module PyRuntime.
Import PyValue.

Inductive http_method := GET | POST.

(** The body [requests] sends: none, [data=... files=...] (a multipart
    form: fields, and file fields with the local path read), or [json=...]. *)
Inductive http_body :=
| NoBody
| Form (fields : list (string * pyval)) (files : list (string * string))
| JsonBody (v : pyval).

Record http_request := mk_request {
  rq_method : http_method;
  rq_url : string;
  rq_body : http_body
}.

(** A [requests.Response]: the status code and the body as
    [response.json()] parses it ([None]: the body is not JSON). *)
Record http_response := mk_response {
  status_code : Z;
  resp_json : option pyval
}.

Inductive log_level := INFO | ERROR.

(** What the process does that is visible outside, with the clock time. *)
Inductive event :=
| EvHttp (t : Z) (rq : http_request)
| EvLog (t : Z) (lvl : log_level) (msg : string)
| EvRespond (t : Z) (body : pyval).

(** A background task: [delete_telegram_message] is the one function the
    program hands to [background_tasks.add_task], with its argument. *)
Inductive task := DeleteTelegramMessage (message_id : pyval).

Record World := mk_world {
  w_fs : gset string;
  w_clock : Z;
  w_trace : list event;
  w_tasks : list task
}.

Definition Py (A : Type) : Type := World → outcome A * World.

#[export] Instance py_ret : MRet Py := λ A a w, (Ok a, w).
#[export] Instance py_bind : MBind Py := λ A B f c w,
  match c w with
  | (Ok a, w') => f a w'
  | (Raise e, w') => (Raise e, w')
  end.

Definition raise {A} (e : pyexc) : Py A := λ w, (Raise e, w).

(** [try: c except Exception as e: h(e)]. *)
Definition try_except {A} (c : Py A) (h : pyexc → Py A) : Py A := λ w,
  match c w with
  | (Ok a, w') => (Ok a, w')
  | (Raise e, w') => h e w'
  end.

Notation "'try:' c 'except' e '=>' h" := (try_except c (λ e, h))
  (at level 10, e name, c at level 100, h at level 200) : py_scope.

Definition of_outcome {A} (o : outcome A) : Py A := λ w, (o, w).

Definition emit (ev : World → event) : Py unit := λ w,
  (Ok (), mk_world (w_fs w) (w_clock w) (w_trace w ++ [ev w]) (w_tasks w)).

(** ** Library calls *)

(** [time.sleep(s)]. *)
Definition time_sleep (s : nat) : Py unit := λ w,
  (Ok (), mk_world (w_fs w) (w_clock w + Z.of_nat s) (w_trace w) (w_tasks w)).

(** Lines 29-30: [logging.basicConfig(level=logging.INFO)] sets the
    root logger's level; [logger = logging.getLogger(__name__)] has no
    level of its own, so [logger.isEnabledFor] compares a record's level
    with the root's. *)
Definition level_no (lvl : log_level) : nat :=
  match lvl with
  | INFO => 20
  | ERROR => 40
  end.

Definition root_level : nat := 20.

Definition logger_log (lvl : log_level) (msg : string) : Py unit :=
  if Nat.leb root_level (level_no lvl) then emit (λ w, EvLog (w_clock w) lvl msg) else mret ().

Definition logger_info (msg : string) : Py unit := logger_log INFO msg.
Definition logger_error (msg : string) : Py unit := logger_log ERROR msg.

(** [os.path.exists(f)]. *)
Definition os_path_exists (f : string) : Py bool := λ w, (Ok (bool_decide (f ∈ w_fs w)), w).

(** [os.remove(f)]. *)
Definition os_remove (f : string) : Py unit := λ w,
  if decide (f ∈ w_fs w)
  then (Ok (), mk_world (w_fs w ∖ {[f]}) (w_clock w) (w_trace w) (w_tasks w))
  else (Raise (FileNotFoundError f), w).

(** [open(f, "rb")]: the handle is not modelled, only the failure. *)
Definition open_rb (f : string) : Py unit := λ w,
  if decide (f ∈ w_fs w) then (Ok (), w) else (Raise (FileNotFoundError f), w).

(** [d[k]] and [d.get(k, dflt)] in [Py]. *)
Definition py_getitem (d : pyval) (k : string) : Py pyval := of_outcome (getitem d k).
Definition py_get (d : pyval) (k : string) (dflt : pyval) : Py pyval :=
  of_outcome (dict_get d k dflt).

(** [response.json()]. *)
Definition response_json (r : http_response) : Py pyval :=
  match resp_json r with
  | Some v => mret v
  | None => raise (JSONDecodeError "Expecting value: line 1 column 1 (char 0)")
  end.

(** [background_tasks.add_task(...)]. *)
Definition add_task (t : task) : Py unit := λ w,
  (Ok (), mk_world (w_fs w) (w_clock w) (w_trace w) (w_tasks w ++ [t])).

(** The framework's side of [BackgroundTasks]: a fresh, empty task list
    for a request, and reading it back once the response is sent. *)
Definition reset_tasks : Py unit := λ w,
  (Ok (), mk_world (w_fs w) (w_clock w) (w_trace w) []).
Definition get_tasks : Py (list task) := λ w, (Ok (w_tasks w), w).

(** The HTTP requests of a trace, in order. *)
Definition http_requests (tr : list event) : list http_request :=
  omap (λ ev, match ev with EvHttp _ rq => Some rq | _ => None end) tr.

(** ** The external collaborators *)

Class HttpTransport := {
  transport : http_request → World → outcome http_response
}.

Class YoutubeDL := {
  ydl_extract_info : list (string * pyval) → string → World → outcome pyval * list string;
  ydl_prepare_filename : list (string * pyval) → pyval → string
}.

(** The world after the request [rq] is sent. *)
Definition sent (w : World) (rq : http_request) : World :=
  mk_world (w_fs w) (w_clock w) (w_trace w ++ [EvHttp (w_clock w) rq]) (w_tasks w).

(** Do the options ask yt-dlp's [FFmpegExtractAudio] post-processor for
    mp3?  Then the file it leaves is [<id>.mp3], not [<id>.<ext>]. *)
Definition extracts_mp3 (opts : list (string * pyval)) : bool :=
  match dict_lookup "postprocessors" opts with
  | Some (PList pps) =>
      existsb (λ pp, match pp with
                     | PDict kvs =>
                         match dict_lookup "key" kvs, dict_lookup "preferredcodec" kvs with
                         | Some (PStr k), Some (PStr c) =>
                             String.eqb k "FFmpegExtractAudio" && String.eqb c "mp3"
                         | _, _ => false
                         end
                     | _ => false
                     end) pps
  | _ => false
  end.

Section Calls.
Context `{HttpTransport}.

(** [requests.get]/[requests.post]: the request is recorded as sent, then
    the server's answer (or a connection error) is returned. *)
Definition requests_send (rq : http_request) : Py http_response := λ w,
  (transport rq w, sent w rq).

End Calls.

Section Ydl.
Context `{YoutubeDL}.

(** [ydl.extract_info(url, download=True)]: the files yt-dlp wrote are
    added to the working directory, whether or not it then raised. *)
Definition extract_info (opts : list (string * pyval)) (url : string) : Py pyval := λ w,
  let '(o, files) := ydl_extract_info opts url w in
  (o, mk_world (w_fs w ∪ list_to_set files) (w_clock w) (w_trace w) (w_tasks w)).

End Ydl.

(** ** Running a computation *)

Lemma py_bind_ok {A B} (f : A → Py B) (c : Py A) w a w' :
  c w = (Ok a, w') → (x ← c; f x) w = f a w'.
Proof. intros Hc. cbv [mbind py_bind]. by rewrite Hc. Qed.

Lemma py_bind_raise {A B} (f : A → Py B) (c : Py A) w e w' :
  c w = (Raise e, w') → (x ← c; f x) w = (Raise e, w').
Proof. intros Hc. cbv [mbind py_bind]. by rewrite Hc. Qed.

Lemma py_ret_run {A} (a : A) w : (mret a : Py A) w = (Ok a, w).
Proof. reflexivity. Qed.

Lemma try_except_ok {A} (c : Py A) h w a w' :
  c w = (Ok a, w') → try_except c h w = (Ok a, w').
Proof. intros Hc. unfold try_except. by rewrite Hc. Qed.

Lemma try_except_raise {A} (c : Py A) h w e w' :
  c w = (Raise e, w') → try_except c h w = h e w'.
Proof. intros Hc. unfold try_except. by rewrite Hc. Qed.

#[export] Hint Rewrite @py_ret_run : pyrt.

(** ** Frame properties

    [Preserves R c]: every run of [c] ends in a world related by [R] to
    the one it started in.  [R] is a preorder: [wle] (time moves forward
    and the trace only grows), [same_fs] (the working directory is
    untouched), [same_tasks] (no background task is added), [same_trace]
    (nothing visible outside happens).  Pure steps
    preserve every reflexive [R], composition every transitive [R], and
    each library call the relations it respects; type class search then
    proves a frame property of a whole function from its code. *)

Definition wle (w w' : World) : Prop :=
  w_clock w ≤ w_clock w' ∧ w_trace w `prefix_of` w_trace w'.
Definition same_fs (w w' : World) : Prop := w_fs w = w_fs w'.
Definition same_tasks (w w' : World) : Prop := w_tasks w = w_tasks w'.
Definition same_trace (w w' : World) : Prop := w_trace w = w_trace w'.

#[export] Instance wle_preorder : PreOrder wle.
Proof.
  split.
  - intros w. split; [lia|done].
  - intros w1 w2 w3 [??] [??]. split; [lia|]. by etrans.
Qed.
#[export] Instance same_fs_preorder : PreOrder same_fs.
Proof. unfold same_fs. split; [by intros ?|intros ??? H1 H2; by rewrite H1]. Qed.
#[export] Instance same_tasks_preorder : PreOrder same_tasks.
Proof. unfold same_tasks. split; [by intros ?|intros ??? H1 H2; by rewrite H1]. Qed.
#[export] Instance same_trace_preorder : PreOrder same_trace.
Proof. unfold same_trace. split; [by intros ?|intros ??? H1 H2; by rewrite H1]. Qed.

Class Preserves (R : relation World) {A} (c : Py A) := preserves : ∀ w, R w (c w).2.
Abbreviation PyMono := (Preserves wle).

Lemma wle_emit w ev :
  wle w (mk_world (w_fs w) (w_clock w) (w_trace w ++ [ev]) (w_tasks w)).
Proof. split; [simpl; lia|]. by eexists. Qed.

Lemma wle_same_trace w fs c ts :
  w_clock w ≤ c → wle w (mk_world fs c (w_trace w) ts).
Proof. intros Hc. by split. Qed.

Lemma wle_elem_of w w' ev : wle w w' → ev ∈ w_trace w → ev ∈ w_trace w'.
Proof. intros [_ [l ->]] Hin. apply elem_of_app. by left. Qed.

#[export] Hint Resolve wle_emit wle_same_trace : pyrt.
#[export] Hint Unfold same_fs same_tasks : pyrt.

(** Solve the frame goal of one library call. *)
Ltac frame_call :=
  intros w; repeat (case_decide || case_match); try reflexivity;
  first [apply wle_emit | apply wle_same_trace; simpl; lia | reflexivity].

Section Frames.
Context `{HttpTransport, YoutubeDL}.
Context (R : relation World) `{!PreOrder R}.

#[export] Instance ret_pres {A} (a : A) : Preserves R (mret a : Py A).
Proof. intros w. reflexivity. Qed.
#[export] Instance raise_pres {A} e : Preserves R (raise e : Py A).
Proof. intros w. reflexivity. Qed.
#[export] Instance of_outcome_pres {A} (o : outcome A) : Preserves R (of_outcome o).
Proof. intros w. reflexivity. Qed.
#[export] Instance os_path_exists_pres f : Preserves R (os_path_exists f).
Proof. intros w. reflexivity. Qed.
#[export] Instance open_rb_pres f : Preserves R (open_rb f).
Proof. intros w. unfold open_rb. case_decide; reflexivity. Qed.
#[export] Instance py_getitem_pres d k : Preserves R (py_getitem d k).
Proof. intros w. reflexivity. Qed.
#[export] Instance py_get_pres d k v : Preserves R (py_get d k v).
Proof. intros w. reflexivity. Qed.
#[export] Instance response_json_pres r : Preserves R (response_json r).
Proof. intros w. unfold response_json. case_match; reflexivity. Qed.

#[export] Instance bind_pres {A B} (f : A → Py B) (c : Py A) :
  Preserves R c → (∀ a, Preserves R (f a)) → Preserves R (mbind f c).
Proof.
  intros Hc Hf w. cbv [mbind py_bind].
  specialize (Hc w). destruct (c w) as [[a|e] w'].
  - etrans; [exact Hc|]. apply Hf.
  - exact Hc.
Qed.

#[export] Instance try_except_pres {A} (c : Py A) h :
  Preserves R c → (∀ e, Preserves R (h e)) → Preserves R (try_except c h).
Proof.
  intros Hc Hh w. unfold try_except.
  specialize (Hc w). destruct (c w) as [[a|e] w'].
  - exact Hc.
  - etrans; [exact Hc|]. apply Hh.
Qed.

#[export] Instance if_pres {A} (b : bool) (c1 c2 : Py A) :
  Preserves R c1 → Preserves R c2 → Preserves R (if b then c1 else c2).
Proof. by destruct b. Qed.

End Frames.

Section Calls.
Context `{HttpTransport, YoutubeDL}.

#[export] Instance emit_mono ev : PyMono (emit ev).
Proof. frame_call. Qed.
#[export] Instance emit_fs ev : Preserves same_fs (emit ev).
Proof. frame_call. Qed.
#[export] Instance emit_tasks ev : Preserves same_tasks (emit ev).
Proof. frame_call. Qed.
#[export] Instance logger_info_mono m : PyMono (logger_info m).
Proof. unfold logger_info, logger_log. frame_call. Qed.
#[export] Instance logger_info_fs m : Preserves same_fs (logger_info m).
Proof. unfold logger_info, logger_log. frame_call. Qed.
#[export] Instance logger_info_tasks m : Preserves same_tasks (logger_info m).
Proof. unfold logger_info, logger_log. frame_call. Qed.
#[export] Instance logger_error_mono m : PyMono (logger_error m).
Proof. unfold logger_error, logger_log. frame_call. Qed.
#[export] Instance logger_error_fs m : Preserves same_fs (logger_error m).
Proof. unfold logger_error, logger_log. frame_call. Qed.
#[export] Instance logger_error_tasks m : Preserves same_tasks (logger_error m).
Proof. unfold logger_error, logger_log. frame_call. Qed.
#[export] Instance reset_tasks_mono : PyMono reset_tasks.
Proof. frame_call. Qed.
#[export] Instance get_tasks_pres R `{!PreOrder R} : Preserves R get_tasks.
Proof. intros w. reflexivity. Qed.
#[export] Instance time_sleep_mono s : PyMono (time_sleep s).
Proof. frame_call. Qed.
#[export] Instance time_sleep_fs s : Preserves same_fs (time_sleep s).
Proof. frame_call. Qed.
#[export] Instance time_sleep_tasks s : Preserves same_tasks (time_sleep s).
Proof. frame_call. Qed.
#[export] Instance os_remove_mono f : PyMono (os_remove f).
Proof. unfold os_remove. frame_call. Qed.
#[export] Instance os_remove_tasks f : Preserves same_tasks (os_remove f).
Proof. unfold os_remove. frame_call. Qed.
#[export] Instance add_task_mono t : PyMono (add_task t).
Proof. frame_call. Qed.
#[export] Instance add_task_fs t : Preserves same_fs (add_task t).
Proof. frame_call. Qed.
#[export] Instance requests_send_mono rq : PyMono (requests_send rq).
Proof. frame_call. Qed.
#[export] Instance requests_send_fs rq : Preserves same_fs (requests_send rq).
Proof. frame_call. Qed.
#[export] Instance requests_send_tasks rq : Preserves same_tasks (requests_send rq).
Proof. frame_call. Qed.
#[export] Instance extract_info_mono opts url : PyMono (extract_info opts url).
Proof. unfold extract_info. frame_call. Qed.
#[export] Instance extract_info_tasks opts url : Preserves same_tasks (extract_info opts url).
Proof. unfold extract_info. frame_call. Qed.
#[export] Instance extract_info_trace opts url : Preserves same_trace (extract_info opts url).
Proof. unfold extract_info. frame_call. Qed.

End Calls.

#[export] Hint Extern 1 (Preserves _ (match ?x with _ => _ end)) =>
  destruct x : typeclass_instances.

(** ** Symbolic execution

    [py_run] runs a computation on a symbolic world: it unfolds the monad
    and the library calls, and rewrites with the hypotheses that fix what
    the collaborators answer, what the dicts hold, and the tests. *)

Ltac py_unfold :=
  cbv [mbind py_bind mret py_ret raise try_except of_outcome py_getitem py_get
       emit requests_send open_rb os_path_exists os_remove time_sleep add_task
       response_json logger_info logger_error logger_log root_level level_no Nat.leb
       extract_info reset_tasks get_tasks].

Ltac py_rewrite :=
  match goal with
  | H : ?c = (_, _) |- context [?c] => rewrite H
  | H : transport ?rq ?w = _ |- context [transport ?rq ?w] => rewrite H
  | H : getitem ?d ?k = _ |- context [getitem ?d ?k] => rewrite H
  | H : dict_get ?d ?k ?v = _ |- context [dict_get ?d ?k ?v] => rewrite H
  | H : resp_json ?r = _ |- context [resp_json ?r] => rewrite H
  | H : ydl_extract_info ?o ?u ?w = _ |- context [ydl_extract_info ?o ?u ?w] => rewrite H
  | |- context [decide (_ ∈ _)] =>
      first [rewrite decide_True by set_solver | rewrite decide_False by set_solver]
  | |- context [bool_decide _] =>
      first [rewrite bool_decide_true by (done || lia)
            | rewrite bool_decide_false by (done || lia)]
  end.

Ltac py_run := py_unfold; repeat (py_rewrite; cbn beta iota zeta).

End PyRuntime.
