(* ===== verification/Config.v ===== *)
(** * Configuration (lines 13-16 of [src/main.py])

    [BOT_TOKEN] and [CHAT_ID] are read once with [os.getenv], which returns
    [None] for an unset variable; the two Bot API base URLs are f-strings
    of the token.  The configuration is an explicit record passed to the
    code that reads it, in place of the module's globals. *)

From S2P Require Import Prelude PyValue.

Module Config.
Import PyValue.

Record config := mk_config {
  BOT_TOKEN : option string;
  CHAT_ID : option string
}.

(** [os.getenv(k)] over the process environment. *)
Definition getenv (env : gmap string string) (k : string) : option string := env !! k.

(** Lines 13-14. *)
Definition load_config (env : gmap string string) : config :=
  mk_config (getenv env "BOT_TOKEN") (getenv env "CHAT_ID").

(** Line 15: [f"https://api.telegram.org/bot{BOT_TOKEN}"]. *)
Definition TELEGRAM_API_URL (cfg : config) : string :=
  "https://api.telegram.org/bot" +:+ py_str (opt_str (BOT_TOKEN cfg)).

(** Line 16: [f"https://api.telegram.org/file/bot{BOT_TOKEN}"]. *)
Definition TELEGRAM_FILE_URL (cfg : config) : string :=
  "https://api.telegram.org/file/bot" +:+ py_str (opt_str (BOT_TOKEN cfg)).

End Config.
