(* ===== verification/Fixtures.v ===== *)
(** * Concrete collaborators for the witnesses

    A Bot API server and a yt-dlp that answer like the real ones on a
    fixed input, instances of [HttpTransport] and [YoutubeDL].  They are
    test fixtures, not models of this repository's code: the witnesses of
    the theorems run the program against them.

    The server answers [sendDocument] (a POST with a multipart form) with
    [upload_status] and a message with id [42] holding document ["F1"],
    [getFile] (a GET) with [getfile_status] and the storage path
    ["documents/file_7.mp4"] when that status is 200 (an error body
    otherwise), and [deleteMessage] (a POST with a JSON body) with
    [delete_status].
    yt-dlp returns the info dict of video ["abc"] in container [ext],
    writes the file the real yt-dlp would write (["abc.mp3"] when the
    options ask for mp3 extraction), and names it [id.ext]. *)

From S2P Require Import Prelude PyValue PyRuntime Config.

Module Fixtures.
Import PyValue PyRuntime Config.

Record server_params := mk_server_params {
  upload_status : Z;
  getfile_status : Z;
  delete_status : Z
}.

Definition send_document_answer (p : server_params) : http_response :=
  mk_response (upload_status p)
    (Some (PDict [("ok", PBool true);
                  ("result", PDict [("message_id", PInt 42);
                                    ("document", PDict [("file_id", PStr "F1")])])])).

Definition get_file_answer (p : server_params) : http_response :=
  if decide (getfile_status p = 200)
  then mk_response 200 (Some (PDict [("ok", PBool true);
                                     ("result", PDict [("file_path", PStr "documents/file_7.mp4")])]))
  else mk_response (getfile_status p)
         (Some (PDict [("ok", PBool false); ("description", PStr "Bad Request: invalid file_id")])).

Definition mock_server (p : server_params) : HttpTransport := {|
  transport rq _ :=
    match rq_method rq, rq_body rq with
    | POST, Form _ _ => Ok (send_document_answer p)
    | GET, _ => Ok (get_file_answer p)
    | _, _ => Ok (mk_response (delete_status p)
                   (Some (PDict [("ok", PBool (bool_decide (delete_status p = 200)))])))
    end
|}.

Definition ok_server : server_params := mk_server_params 200 200 200.

Definition test_config : config := mk_config (Some "TOK") (Some "-100").

Definition mock_info_kvs (ext : string) : list (string * pyval) :=
  [("id", PStr "abc"); ("ext", PStr ext); ("title", PStr "A clip");
   ("thumbnail", PStr "https://i.example/abc.jpg")].

Definition mock_info (ext : string) : pyval := PDict (mock_info_kvs ext).

Definition mock_ydl (ext : string) : YoutubeDL := {|
  ydl_extract_info opts _ _ :=
    (Ok (mock_info ext), [if extracts_mp3 opts then "abc.mp3" else "abc." +:+ ext]);
  ydl_prepare_filename _ _ := "abc." +:+ ext
|}.

(** A yt-dlp for which every URL fails. *)
Definition failing_ydl : YoutubeDL := {|
  ydl_extract_info _ url _ := (Raise (DownloadError ("ERROR: Unsupported URL: " +:+ url)), []);
  ydl_prepare_filename _ _ := "NA.NA"
|}.

Definition empty_world : World := mk_world ∅ 0 [] [].

End Fixtures.
