(* ===== verification/Telegram.v ===== *)
(** * The Relay Uploader and the Deferred Cleanup (lines 36-63)

    [upload_to_telegram] (lines 46-63) opens the local file, posts it to
    [sendDocument], raises [Exception("Telegram Upload Failed")] on a
    status other than 200, reads [file_id] and [message_id] from the
    answer, asks [getFile] for the storage path (without checking that
    answer's status) and returns the download URL and the message id.
    [delete_telegram_message] (lines 36-44) sleeps 60 seconds, posts
    [deleteMessage] and logs; an exception of the post or of the log is
    caught and logged, so the function never raises. *)

From S2P Require Import Prelude PyStr PyValue PyRuntime Config Fixtures.

Module Telegram.
Import PyValue PyRuntime Config.
Local Open Scope py_scope.

(** [CHAT_ID] as the value put in a request body. *)
Definition chat_id_val (cfg : config) : pyval := opt_str (CHAT_ID cfg).

(** The form fields [requests] encodes from a [data=] dict: a field whose
    value is [None] is left out of the multipart body. *)
Definition form_fields (data : list (string * pyval)) : list (string * pyval) :=
  filter (λ kv, kv.2 ≠ PNone) data.

(** Lines 48-50: the [sendDocument] request. *)
Definition send_document_request (cfg : config) (file_path : string) : http_request :=
  mk_request POST (TELEGRAM_API_URL cfg +:+ "/sendDocument")
    (Form (form_fields [("chat_id", chat_id_val cfg)]) [("document", file_path)]).

(** Line 60: the [getFile] request. *)
Definition get_file_request (cfg : config) (file_id : pyval) : http_request :=
  mk_request GET (TELEGRAM_API_URL cfg +:+ "/getFile?file_id=" +:+ py_str file_id) NoBody.

(** Lines 40-41: the [deleteMessage] request. *)
Definition delete_message_request (cfg : config) (message_id : pyval) : http_request :=
  mk_request POST (TELEGRAM_API_URL cfg +:+ "/deleteMessage")
    (JsonBody (PDict [("chat_id", chat_id_val cfg); ("message_id", message_id)])).

Section WithServer.
Context `{HttpTransport}.
Variable cfg : config.

(** Lines 46-63. *)
Definition upload_to_telegram (file_path : string) : Py (string * pyval) :=
  open_rb file_path;;
  response ← requests_send (send_document_request cfg file_path);
  if bool_decide (status_code response ≠ 200)
  then raise (Exception "Telegram Upload Failed")
  else
    result ← response_json response;
    r ← py_getitem result "result";
    doc ← py_getitem r "document";
    file_id ← py_getitem doc "file_id";
    r' ← py_getitem result "result";
    message_id ← py_getitem r' "message_id";
    path_response ← requests_send (get_file_request cfg file_id);
    pj ← response_json path_response;
    pr ← py_getitem pj "result";
    file_path_remote ← py_getitem pr "file_path";
    mret (TELEGRAM_FILE_URL cfg +:+ "/" +:+ py_str file_path_remote, message_id).

(** Lines 39-44: the deletion itself, after the wait. *)
Definition delete_message_now (message_id : pyval) : Py unit :=
  try: (_ ← requests_send (delete_message_request cfg message_id);
        logger_info ("Deleted message " +:+ py_str message_id +:+ " from Telegram."))
  except e => logger_error ("Failed to delete message: " +:+ str_exc e).

(** Line 38: the wait before the deletion, in seconds. *)
Definition grace_period : nat := 60.

(** Lines 36-44. *)
Definition delete_telegram_message (message_id : pyval) : Py unit :=
  time_sleep grace_period;;
  delete_message_now message_id.

(** ** Frames: the uploader and the cleanup touch neither the working
    directory nor the task list, and only move forward in time. *)

#[export] Instance upload_to_telegram_mono f : PyMono (upload_to_telegram f).
Proof. unfold upload_to_telegram. apply _. Qed.
#[export] Instance upload_to_telegram_fs f : Preserves same_fs (upload_to_telegram f).
Proof. unfold upload_to_telegram. apply _. Qed.
#[export] Instance upload_to_telegram_tasks f : Preserves same_tasks (upload_to_telegram f).
Proof. unfold upload_to_telegram. apply _. Qed.
#[export] Instance delete_message_now_mono mid : PyMono (delete_message_now mid).
Proof. unfold delete_message_now. apply _. Qed.
#[export] Instance delete_telegram_message_mono mid : PyMono (delete_telegram_message mid).
Proof. unfold delete_telegram_message. apply _. Qed.

(** ** Properties of the Relay Uploader *)

(** C4. The success path: the file exists, [sendDocument] answers 200 with a
    body holding [result.document.file_id] and [result.message_id], and
    [getFile] answers a body holding [result.file_path]; then the upload
    returns the file URL built from that path and the message id, after
    exactly the two requests, in this order. *)
Lemma upload_to_telegram_ok f w r1 b1 res doc fid mid r2 b2 res2 p :
  f ∈ w_fs w →
  transport (send_document_request cfg f) w = Ok r1 →
  status_code r1 = 200 →
  resp_json r1 = Some b1 →
  getitem b1 "result" = Ok res →
  getitem res "document" = Ok doc →
  getitem doc "file_id" = Ok fid →
  getitem res "message_id" = Ok mid →
  transport (get_file_request cfg fid) (sent w (send_document_request cfg f)) = Ok r2 →
  resp_json r2 = Some b2 →
  getitem b2 "result" = Ok res2 →
  getitem res2 "file_path" = Ok p →
  upload_to_telegram f w =
    (Ok (TELEGRAM_FILE_URL cfg +:+ "/" +:+ py_str p, mid),
     sent (sent w (send_document_request cfg f)) (get_file_request cfg fid)).
Proof. intros. unfold upload_to_telegram. py_run. reflexivity. Qed.

(** C5. A status other than 200 from [sendDocument] raises
    [Exception("Telegram Upload Failed")] right after that request: no
    [getFile] request is sent. *)
Lemma upload_to_telegram_status_error f w r1 :
  f ∈ w_fs w →
  transport (send_document_request cfg f) w = Ok r1 →
  status_code r1 ≠ 200 →
  upload_to_telegram f w =
    (Raise (Exception "Telegram Upload Failed"), sent w (send_document_request cfg f)).
Proof. intros. unfold upload_to_telegram. py_run. reflexivity. Qed.

(** C22. A missing local file raises [FileNotFoundError] before any request. *)
Lemma upload_to_telegram_no_file f w :
  f ∉ w_fs w → upload_to_telegram f w = (Raise (FileNotFoundError f), w).
Proof. intros. unfold upload_to_telegram. py_run. reflexivity. Qed.

(** C13. [getFile]'s status is not checked: when it answers an error body
    without ["result"], the upload raises [KeyError('result')] after the
    document was posted, and the message id is lost with the exception. *)
Lemma upload_to_telegram_getfile_error f w r1 b1 res doc fid mid r2 b2 :
  f ∈ w_fs w →
  transport (send_document_request cfg f) w = Ok r1 →
  status_code r1 = 200 →
  resp_json r1 = Some b1 →
  getitem b1 "result" = Ok res →
  getitem res "document" = Ok doc →
  getitem doc "file_id" = Ok fid →
  getitem res "message_id" = Ok mid →
  transport (get_file_request cfg fid) (sent w (send_document_request cfg f)) = Ok r2 →
  resp_json r2 = Some b2 →
  getitem b2 "result" = Raise (KeyError (PStr "result")) →
  upload_to_telegram f w =
    (Raise (KeyError (PStr "result")),
     sent (sent w (send_document_request cfg f)) (get_file_request cfg fid)).
Proof. intros. unfold upload_to_telegram. py_run. reflexivity. Qed.

(** ** Properties of the Deferred Cleanup *)

(** The world after the cleanup of [mid] started in [w]: [grace_period]
    seconds later, one [deleteMessage] request and one log line. *)
Definition after_delete (w : World) (mid : pyval) (lvl : log_level) (msg : string) : World :=
  let t := w_clock w + Z.of_nat grace_period in
  mk_world (w_fs w) t
    (w_trace w ++ [EvHttp t (delete_message_request cfg mid); EvLog t lvl msg])
    (w_tasks w).

(** The cleanup never raises, whatever the server does: it waits
    [grace_period] seconds, sends exactly one [deleteMessage] request for [mid], then
    logs success if the request returned and the error if it raised. *)
Lemma delete_telegram_message_run mid w :
  delete_telegram_message mid w =
    (Ok (),
     match transport (delete_message_request cfg mid)
             (mk_world (w_fs w) (w_clock w + Z.of_nat grace_period) (w_trace w) (w_tasks w)) with
     | Ok _ => after_delete w mid INFO ("Deleted message " +:+ py_str mid +:+ " from Telegram.")
     | Raise e => after_delete w mid ERROR ("Failed to delete message: " +:+ str_exc e)
     end).
Proof.
  unfold delete_telegram_message, delete_message_now. py_unfold. cbn.
  destruct (transport _ _); cbn; unfold after_delete; by rewrite <- app_assoc.
Qed.

(** Lines 39-44 never raise: one [deleteMessage] request, then one log
    line, at the current time. *)
Lemma delete_message_now_shape mid w :
  ∃ lvl msg, delete_message_now mid w =
    (Ok (), mk_world (w_fs w) (w_clock w)
              (w_trace w ++ [EvHttp (w_clock w) (delete_message_request cfg mid);
                             EvLog (w_clock w) lvl msg])
              (w_tasks w)).
Proof.
  unfold delete_message_now. py_unfold. cbn.
  destruct (transport _ _); cbn; eexists _, _; by rewrite <- app_assoc.
Qed.

(** C14. The Deferred Cleanup never raises, whatever the server does, and is
    one [deleteMessage] request for [mid] sent 60 seconds after the task
    started: the clock advances by 60 and the only request in the trace
    is that one. *)
Lemma delete_telegram_message_spec mid w :
  let r := delete_telegram_message mid w in
  r.1 = Ok () ∧ w_clock r.2 = w_clock w + 60 ∧
  (∃ post, w_trace r.2 = w_trace w ++ post ∧
           http_requests post = [delete_message_request cfg mid] ∧
           ∀ t rq, EvHttp t rq ∈ post → t = w_clock w + 60).
Proof.
  simpl. rewrite delete_telegram_message_run.
  destruct (transport _ _); simpl; (split; [done|]; split; [done|]);
    (eexists; split; [reflexivity|]; split; [reflexivity|]);
    intros t rq Hin; apply list_elem_of_In in Hin;
    destruct Hin as [[= <- _]|[[=]|[]]]; done.
Qed.

(** C21. The cleanup logs ["Deleted message ..."] whenever the request returns,
    also when the Bot API refused the deletion with an error status. *)
Lemma delete_telegram_message_logs_refusal mid w r :
  transport (delete_message_request cfg mid)
    (mk_world (w_fs w) (w_clock w + 60) (w_trace w) (w_tasks w)) = Ok r →
  status_code r ≠ 200 →
  EvLog (w_clock w + 60) INFO ("Deleted message " +:+ py_str mid +:+ " from Telegram.")
    ∈ w_trace (delete_telegram_message mid w).2.
Proof.
  intros Hr _. rewrite delete_telegram_message_run. unfold after_delete.
  change (Z.of_nat grace_period) with 60. rewrite Hr. simpl. set_solver.
Qed.

End WithServer.

(** ** Witnesses, against the fixture server *)
Import Fixtures.

Definition w_abc : World := mk_world {["abc.mp4"]} 0 [] [].

Lemma upload_to_telegram_ok_witness :
  @upload_to_telegram (mock_server ok_server) test_config "abc.mp4" w_abc =
    (Ok (TELEGRAM_FILE_URL test_config +:+ "/" +:+ py_str (PStr "documents/file_7.mp4"), PInt 42),
     sent (sent w_abc (send_document_request test_config "abc.mp4"))
          (get_file_request test_config (PStr "F1"))).
Proof.
  eapply (@upload_to_telegram_ok (mock_server ok_server) test_config "abc.mp4" w_abc
           (send_document_answer ok_server) _ _ _ _ _ (get_file_answer ok_server) _ _ _);
    first [set_solver | reflexivity].
Defined.

Lemma upload_to_telegram_status_error_witness :
  @upload_to_telegram (mock_server (mk_server_params 500 200 200)) test_config "abc.mp4" w_abc =
    (Raise (Exception "Telegram Upload Failed"), sent w_abc (send_document_request test_config "abc.mp4")).
Proof.
  apply (@upload_to_telegram_status_error (mock_server (mk_server_params 500 200 200))
           test_config "abc.mp4" w_abc (send_document_answer (mk_server_params 500 200 200)));
    first [set_solver | reflexivity | discriminate].
Defined.

Lemma upload_to_telegram_no_file_witness :
  @upload_to_telegram (mock_server ok_server) test_config "abc.mp3" w_abc =
    (Raise (FileNotFoundError "abc.mp3"), w_abc).
Proof. apply upload_to_telegram_no_file. set_solver. Defined.

Lemma upload_to_telegram_getfile_error_witness :
  @upload_to_telegram (mock_server (mk_server_params 200 400 200)) test_config "abc.mp4" w_abc =
    (Raise (KeyError (PStr "result")),
     sent (sent w_abc (send_document_request test_config "abc.mp4"))
          (get_file_request test_config (PStr "F1"))).
Proof.
  eapply (@upload_to_telegram_getfile_error (mock_server (mk_server_params 200 400 200))
           test_config "abc.mp4" w_abc (send_document_answer (mk_server_params 200 400 200))
           _ _ _ _ _ (get_file_answer (mk_server_params 200 400 200)));
    first [set_solver | reflexivity].
Defined.

Lemma delete_telegram_message_logs_refusal_witness :
  EvLog (w_clock w_abc + 60) INFO ("Deleted message " +:+ py_str (PInt 42) +:+ " from Telegram.")
    ∈ w_trace (@delete_telegram_message (mock_server (mk_server_params 200 200 400))
                 test_config (PInt 42) w_abc).2.
Proof.
  apply (@delete_telegram_message_logs_refusal (mock_server (mk_server_params 200 200 400))
           test_config (PInt 42) w_abc (mk_response 400 (Some (PDict [("ok", PBool false)]))));
    first [reflexivity | discriminate].
Defined.

End Telegram.
