(* ===== verification/Extractor.v ===== *)
(** * The Extractor Adapter (lines 75-97 of [process_video])

    The option dict given to yt-dlp per [format_type] (lines 76-90), the
    download with [extract_info(url, download=True)] and the local file
    name from [prepare_filename(info)], rewritten to [.mp3] for audio
    (lines 93-97).  The code is inline in [process_video]; it is split
    here into [ydl_opts_for], [mp3_filename] and [download_media], which
    [Handler.process_video] composes in the order of the source.

    The specification's table (§4.1) is the abstract contract: a
    [profile] per [format_type] with its format selector, the mp3
    post-processor for audio and the mp4 merge otherwise. *)

From S2P Require Import Prelude PyStr PyValue PyRuntime Fixtures.

Module Extractor.
Import PyValue PyRuntime.

(** Lines 76-80. *)
Definition ydl_opts_base : list (string * pyval) :=
  [("outtmpl", PStr "%(id)s.%(ext)s"); ("quiet", PBool true); ("no_warnings", PBool true)].

Definition ffmpeg_extract_audio : pyval :=
  PDict [("key", PStr "FFmpegExtractAudio"); ("preferredcodec", PStr "mp3")].

(** Lines 82-90. *)
Definition ydl_opts_for (format_type : string) : list (string * pyval) :=
  if String.eqb format_type "audio" then
    dict_update ydl_opts_base
      [("format", PStr "bestaudio/best"); ("postprocessors", PList [ffmpeg_extract_audio])]
  else if String.eqb format_type "hd" then
    dict_update ydl_opts_base
      [("format", PStr "bestvideo+bestaudio/best"); ("merge_output_format", PStr "mp4")]
  else
    dict_update ydl_opts_base
      [("format", PStr "best[height<=480]"); ("merge_output_format", PStr "mp4")].

(** Line 97: [filename.rsplit(".", 1)[0] + ".mp3"]. *)
Definition mp3_filename (filename : string) : Py string :=
  stem ← of_outcome (py_index (PyStr.rsplit1 "."%char filename) 0);
  mret (stem +:+ ".mp3").

Section WithYdl.
Context `{YoutubeDL}.

(** Lines 93-97. *)
Definition download_media (url format_type : string) : Py (pyval * string) :=
  let ydl_opts := ydl_opts_for format_type in
  info ← extract_info ydl_opts url;
  let filename := ydl_prepare_filename ydl_opts info in
  filename ← (if String.eqb format_type "audio" then mp3_filename filename else mret filename);
  mret (info, filename).

#[export] Instance mp3_filename_pres R `{!PreOrder R} fn : Preserves R (mp3_filename fn).
Proof. unfold mp3_filename. apply _. Qed.
#[export] Instance download_media_mono url ft : PyMono (download_media url ft).
Proof. unfold download_media. apply _. Qed.
#[export] Instance download_media_tasks url ft : Preserves same_tasks (download_media url ft).
Proof. unfold download_media. apply _. Qed.
#[export] Instance download_media_trace url ft : Preserves same_trace (download_media url ft).
Proof. unfold download_media. apply _. Qed.

End WithYdl.

(** ** The specification's table *)

Inductive profile := Audio | HD | Normal.

Definition profile_of (format_type : string) : profile :=
  if String.eqb format_type "audio" then Audio
  else if String.eqb format_type "hd" then HD
  else Normal.

Definition selector (p : profile) : string :=
  match p with
  | Audio => "bestaudio/best"
  | HD => "bestvideo+bestaudio/best"
  | Normal => "best[height<=480]"
  end.

(** What the options of a profile must say: the base options, the format
    selector, and either the mp3 extraction or the mp4 merge. *)
Definition opts_meet (p : profile) (opts : list (string * pyval)) : Prop :=
  dict_lookup "outtmpl" opts = Some (PStr "%(id)s.%(ext)s") ∧
  dict_lookup "quiet" opts = Some (PBool true) ∧
  dict_lookup "no_warnings" opts = Some (PBool true) ∧
  dict_lookup "format" opts = Some (PStr (selector p)) ∧
  match p with
  | Audio =>
      dict_lookup "postprocessors" opts = Some (PList [ffmpeg_extract_audio]) ∧
      dict_lookup "merge_output_format" opts = None
  | _ =>
      dict_lookup "postprocessors" opts = None ∧
      dict_lookup "merge_output_format" opts = Some (PStr "mp4")
  end.

(** ** Properties *)

(** C15. Refinement of the table: the option dict built for [format_type]
    meets the contract of its profile, and is a dict with unique keys. *)
Lemma ydl_opts_for_profile ft :
  opts_meet (profile_of ft) (ydl_opts_for ft) ∧ dict_wf (ydl_opts_for ft).
Proof.
  unfold profile_of, ydl_opts_for.
  destruct (String.eqb ft "audio"); [|destruct (String.eqb ft "hd")];
    (split; [repeat split; reflexivity | apply dict_update_wf; unfold dict_wf; vm_compute; repeat constructor; set_solver]).
Qed.

(** C16. Any [format_type] other than ["audio"] and ["hd"], misspellings
    included, gets exactly the options of ["normal"]: the 480p profile. *)
Lemma ydl_opts_for_fallback ft :
  ft ≠ "audio" → ft ≠ "hd" → ydl_opts_for ft = ydl_opts_for "normal".
Proof.
  intros Ha Hh. unfold ydl_opts_for.
  apply String.eqb_neq in Ha, Hh. by rewrite Ha, Hh.
Qed.

Lemma ydl_opts_for_fallback_witness :
  "mp3 " ≠ "audio" ∧ "mp3 " ≠ "hd" ∧ ydl_opts_for "mp3 " = ydl_opts_for "normal".
Proof.
  assert (Ha : "mp3 " ≠ "audio") by discriminate.
  assert (Hh : "mp3 " ≠ "hd") by discriminate.
  split; [exact Ha|]. split; [exact Hh|]. exact (ydl_opts_for_fallback _ Ha Hh).
Defined.

(** C19. The audio rename never raises and always ends in [.mp3]: it drops
    the last extension when the name has a dot, and appends [.mp3] to the
    whole name when it has none. *)
Lemma mp3_filename_spec fn w :
  ∃ stem, mp3_filename fn w = (Ok (stem +:+ ".mp3"), w) ∧
    ((stem = fn ∧ PyStr.has_char "."%char fn = false) ∨
     (∃ ext, fn = stem +:+ "." +:+ ext ∧ PyStr.has_char "."%char ext = false)).
Proof.
  destruct (PyStr.rsplit1_spec "."%char fn) as [[Hs Hn]|(l & r & Hs & -> & Hr)].
  - exists fn. unfold mp3_filename. py_unfold. rewrite Hs. naive_solver.
  - exists l. unfold mp3_filename. py_unfold. rewrite Hs. split; [done|].
    right. by exists r.
Qed.

(** C18. Round trip with yt-dlp's template [%(id)s.%(ext)s]: the name
    [id.ext] becomes [id.mp3] whatever the container [ext] was, also when
    the id itself contains dots. *)
Lemma mp3_filename_template vid ext w :
  PyStr.has_char "."%char ext = false →
  mp3_filename (vid +:+ "." +:+ ext) w = (Ok (vid +:+ ".mp3"), w).
Proof.
  intros Hext. unfold mp3_filename. py_unfold.
  change ("." +:+ ext) with (String "."%char ext).
  by rewrite (PyStr.rsplit1_join "."%char vid ext Hext).
Qed.

Lemma mp3_filename_template_witness :
  PyStr.has_char "."%char "webm" = false ∧
  mp3_filename ("v1.2" +:+ "." +:+ "webm") Fixtures.empty_world =
    (Ok ("v1.2" +:+ ".mp3"), Fixtures.empty_world).
Proof. split; [reflexivity|]. apply mp3_filename_template. reflexivity. Defined.

(** ** The file handed to the uploader is the file yt-dlp wrote

    What yt-dlp does is not this repository's code; the theorem below
    assumes of it what its documentation says: the name
    [prepare_filename] returns follows the template [%(id)s.%(ext)s] with
    an extension free of dots, and the download leaves that file, or
    [<id>.mp3] when the options ask for mp3 extraction. *)

Section YdlNaming.
Context `{YoutubeDL}.

Hypothesis ydl_writes_named_file : ∀ opts url w info files,
  ydl_extract_info opts url w = (Ok info, files) →
  ∃ vid ext, PyStr.has_char "."%char ext = false ∧
    ydl_prepare_filename opts info = vid +:+ "." +:+ ext ∧
    (if extracts_mp3 opts then vid +:+ ".mp3" else vid +:+ "." +:+ ext) ∈ files.

Lemma extracts_mp3_opts ft : extracts_mp3 (ydl_opts_for ft) = String.eqb ft "audio".
Proof.
  unfold ydl_opts_for. destruct (String.eqb ft "audio"); [reflexivity|].
  destruct (String.eqb ft "hd"); reflexivity.
Qed.

(** C17. After a successful download the returned name is a file of the
    working directory (so line 49 opens an existing file), and for audio
    it is the [.mp3] file: the rewrite of line 97 names the file the
    post-processor produced. *)
Lemma download_media_file_exists url ft w info fn w' :
  download_media url ft w = (Ok (info, fn), w') →
  fn ∈ w_fs w' ∧ (ft = "audio" → PyStr.endswith fn ".mp3").
Proof.
  unfold download_media, extract_info. py_unfold.
  destruct (ydl_extract_info _ url w) as [[i|e] files] eqn:Hx; [|done].
  destruct (ydl_writes_named_file _ _ _ _ _ Hx) as (vid & ext & Hext & Hname & Hin).
  rewrite Hname. rewrite extracts_mp3_opts in Hin.
  destruct (String.eqb_spec ft "audio") as [->|Hne].
  - unfold mp3_filename. py_unfold. change ("." +:+ ext) with (String "."%char ext).
    rewrite (PyStr.rsplit1_join "."%char vid ext Hext). intros [= <- <- <-]. simpl.
    split; [set_solver|]. intros _. apply PyStr.endswith_app.
  - intros [= <- <- <-]. simpl. split; [set_solver|done].
Qed.

End YdlNaming.

(** The fixture yt-dlp names and writes its file as the real one does. *)
Lemma mock_ydl_naming ext :
  PyStr.has_char "."%char ext = false →
  ∀ opts url w info files,
    @ydl_extract_info (Fixtures.mock_ydl ext) opts url w = (Ok info, files) →
    ∃ vid ext', PyStr.has_char "."%char ext' = false ∧
      @ydl_prepare_filename (Fixtures.mock_ydl ext) opts info = vid +:+ "." +:+ ext' ∧
      (if extracts_mp3 opts then vid +:+ ".mp3" else vid +:+ "." +:+ ext') ∈ files.
Proof.
  intros Hext opts url w info files. simpl. intros [= <- <-].
  exists "abc", ext. split; [done|]. split; [done|].
  destruct (extracts_mp3 opts); set_solver.
Qed.

Lemma download_media_file_exists_witness :
  "abc.mp3" ∈ w_fs (@download_media (Fixtures.mock_ydl "webm") "https://v.example/abc" "audio"
                      Fixtures.empty_world).2 ∧
  ("audio" = "audio" → PyStr.endswith "abc.mp3" ".mp3").
Proof.
  eapply (@download_media_file_exists (Fixtures.mock_ydl "webm") (mock_ydl_naming "webm" eq_refl)
            "https://v.example/abc" "audio" Fixtures.empty_world (Fixtures.mock_info "webm")).
  reflexivity.
Defined.

End Extractor.
