(* ===== verification/Handler.v ===== *)
(** * The Request Handler (lines 32-34 and 65-119)

    [process_video] runs the extraction ([Extractor.download_media]), the
    upload ([Telegram.upload_to_telegram]), removes the local file if it
    is still there, adds the cleanup task for the message id, and answers
    the success dict; any exception of these steps is caught by the
    [except Exception] of line 117, logged and answered as the error dict.
    [health_check] answers a constant dict.

    The specification's contract for the handler (§4.4: extract, upload,
    local cleanup, schedule and respond; a failure of the first two phases
    short-circuits to the error envelope) is the relation
    [handler_contract]; [process_video_contract] proves the code meets it.
    The envelope of §6 is the typing judgement [envelope_type], which
    every answer of the handler has. *)

From S2P Require Import Prelude PyStr PyValue PyRuntime Config Fixtures Telegram Extractor.

Module Handler.
Import PyValue PyRuntime Config Telegram Extractor.
Local Open Scope py_scope.

(** Lines 32-34: the body of [POST /process-video]. *)
Record VideoRequest := mk_video_request {
  url : string;
  format_type : string
}.

(** Lines 110-115. *)
Definition success_body (tg_link : string) (title thumbnail : pyval) : pyval :=
  PDict [("status", PStr "success"); ("download_url", PStr tg_link);
         ("title", title); ("thumbnail", thumbnail)].

(** Line 119. *)
Definition error_body (e : pyexc) : pyval :=
  PDict [("status", PStr "error"); ("message", PStr (str_exc e))].

(** Lines 65-67. *)
Definition health_check : Py pyval :=
  mret (PDict [("status", PStr "active"); ("message", PStr "Backend is running")]).

Section WithServices.
Context `{HttpTransport, YoutubeDL}.
Variable cfg : config.

(** Lines 102-115: local cleanup, scheduling of the deletion, answer. *)
Definition cleanup_and_respond (info : pyval) (filename tg_link : string) (message_id : pyval)
    : Py pyval :=
  file_exists ← os_path_exists filename;
  (if (file_exists : bool) then os_remove filename else mret ());;
  add_task (DeleteTelegramMessage message_id);;
  title ← py_get info "title" (PStr "Video");
  thumbnail ← py_get info "thumbnail" (PStr "");
  mret (success_body tg_link title thumbnail).

(** Lines 69-119. *)
Definition process_video (request : VideoRequest) : Py pyval :=
  try:
    ('(info, filename) ← download_media (url request) (format_type request);
     '(tg_link, message_id) ← upload_to_telegram cfg filename;
     cleanup_and_respond info filename tg_link message_id)
  except e =>
    (logger_error (str_exc e);;
     mret (error_body e)).

(** ** The contract of §4.4 *)

(** What the extraction and the upload returned, in the order the
    handler runs them: no upload outcome when the extraction raised. *)
Definition phase_outcomes (request : VideoRequest) (w : World)
    : outcome (pyval * string) * option (outcome (string * pyval)) :=
  match download_media (url request) (format_type request) w with
  | (Ok (info, fn), w1) => (Ok (info, fn), Some (upload_to_telegram cfg fn w1).1)
  | (Raise e, _) => (Raise e, None)
  end.

(** The response and the background tasks the contract allows for given
    phase outcomes.  The last case is the code's: yt-dlp's info is read
    with [.get] after the task was added. *)
Inductive handler_contract :
    outcome (pyval * string) → option (outcome (string * pyval)) → pyval → list task → Prop :=
| hc_extract_error e :
    handler_contract (Raise e) None (error_body e) []
| hc_upload_error info fn e :
    handler_contract (Ok (info, fn)) (Some (Raise e)) (error_body e) []
| hc_success kvs fn link mid :
    handler_contract (Ok (PDict kvs, fn)) (Some (Ok (link, mid)))
      (success_body link (default (PStr "Video") (dict_lookup "title" kvs))
                         (default (PStr "") (dict_lookup "thumbnail" kvs)))
      [DeleteTelegramMessage mid]
| hc_info_not_dict info fn link mid e :
    (∀ kvs, info ≠ PDict kvs) → dict_get info "title" (PStr "Video") = Raise e →
    handler_contract (Ok (info, fn)) (Some (Ok (link, mid))) (error_body e)
      [DeleteTelegramMessage mid].

(** The response envelope of §3 and §6 as a typing judgement on the
    answered value: a dict with unique keys whose ["status"] is
    ["success"], with a string ["download_url"] and a ["title"] and a
    ["thumbnail"], or ["error"], with a string ["message"]. *)
Inductive envelope_type : pyval → Prop :=
| env_success kvs link :
    dict_wf kvs →
    dict_lookup "status" kvs = Some (PStr "success") →
    dict_lookup "download_url" kvs = Some (PStr link) →
    is_Some (dict_lookup "title" kvs) →
    is_Some (dict_lookup "thumbnail" kvs) →
    envelope_type (PDict kvs)
| env_error kvs msg :
    dict_wf kvs →
    dict_lookup "status" kvs = Some (PStr "error") →
    dict_lookup "message" kvs = Some (PStr msg) →
    envelope_type (PDict kvs).

(** The handler only moves forward: time never goes back and the trace of
    requests, log lines and responses is only appended to. *)
#[export] Instance process_video_mono rq : PyMono (process_video rq).
Proof. unfold process_video, cleanup_and_respond. apply _. Qed.

(** ** Phases 3 and 4 *)

(** The answer of lines 110-115: the success dict, or the
    [AttributeError] of [info.get] when yt-dlp's info is not a dict. *)
Definition respond_outcome (info : pyval) (link : string) : outcome pyval :=
  match info with
  | PDict kvs =>
      Ok (success_body link (default (PStr "Video") (dict_lookup "title" kvs))
                            (default (PStr "") (dict_lookup "thumbnail" kvs)))
  | _ => Raise (AttributeError ("'" +:+ type_name info +:+ "' object has no attribute 'get'"))
  end.

(** Lines 102-115 never fail on the file: the local file is gone
    afterwards whether or not it was there, exactly one task is added,
    and nothing else changes. *)
Lemma cleanup_and_respond_run info fn link mid w :
  cleanup_and_respond info fn link mid w =
    (respond_outcome info link,
     mk_world (w_fs w ∖ {[fn]}) (w_clock w) (w_trace w) (w_tasks w ++ [DeleteTelegramMessage mid])).
Proof.
  unfold cleanup_and_respond. py_unfold.
  destruct (decide (fn ∈ w_fs w)) as [Hin|Hout].
  - rewrite bool_decide_true, decide_True by done. cbn.
    by destruct info.
  - rewrite bool_decide_false by done. cbn.
    replace (w_fs w ∖ {[fn]}) with (w_fs w) by set_solver.
    by destruct info.
Qed.

(** ** Properties *)


(** [process_video] meets the contract of §4.4: it never raises; its
    answer and the tasks it adds are the ones the contract gives for what
    the extraction and the upload returned. *)
Lemma process_video_contract rq w :
  ∃ resp new,
    (process_video rq w).1 = Ok resp ∧
    w_tasks (process_video rq w).2 = w_tasks w ++ new ∧
    handler_contract (phase_outcomes rq w).1 (phase_outcomes rq w).2 resp new.
Proof.
  unfold process_video, phase_outcomes.
  pose proof (download_media_tasks (url rq) (format_type rq) w) as Ht1.
  destruct (download_media _ _ w) as [[[info fn]|e] w1] eqn:Ed;
    py_unfold; rewrite Ed; cbn; unfold same_tasks in Ht1; simpl in Ht1.
  - pose proof (upload_to_telegram_tasks cfg fn w1) as Ht2.
    destruct (upload_to_telegram cfg fn w1) as [[[link mid]|e] w2] eqn:Eu;
      cbn; unfold same_tasks in Ht2; simpl in Ht2.
    + rewrite cleanup_and_respond_run. rewrite Ht1, Ht2.
      destruct info as [| | | | |kvs]; cbn; eexists _, _;
        (split; [reflexivity|]; split; [reflexivity|]);
        first [apply hc_success | eapply hc_info_not_dict; [intros ??; discriminate|reflexivity]].
    + eexists _, []. split; [reflexivity|].
      split; [simpl; by rewrite app_nil_r, Ht1, Ht2|constructor].
  - eexists _, []. split; [reflexivity|].
    split; [simpl; by rewrite app_nil_r|constructor].
Qed.

(** What the contract allows is an envelope, and at most one task. *)
Lemma success_body_type link title thumbnail : envelope_type (success_body link title thumbnail).
Proof.
  eapply env_success; [|reflexivity..|by eexists|by eexists].
  unfold dict_wf. simpl. repeat constructor; set_solver.
Qed.

Lemma error_body_type e : envelope_type (error_body e).
Proof.
  eapply env_error; [|reflexivity..].
  unfold dict_wf. simpl. repeat constructor; set_solver.
Qed.

#[local] Hint Resolve success_body_type error_body_type : pyrt.

Lemma handler_contract_shape a b resp new :
  handler_contract a b resp new → envelope_type resp ∧ (length new ≤ 1)%nat.
Proof. destruct 1; split; simpl; auto with pyrt lia. Qed.

(** C2. The success path end to end: the answer is the success dict with
    yt-dlp's title (default ["Video"]) and thumbnail (default [""]), the
    local file is gone, and the deletion of the uploaded message is the one
    task added. *)
Lemma process_video_success rq w kvs fn w1 link mid w2 :
  download_media (url rq) (format_type rq) w = (Ok (PDict kvs, fn), w1) →
  upload_to_telegram cfg fn w1 = (Ok (link, mid), w2) →
  process_video rq w =
    (Ok (success_body link (default (PStr "Video") (dict_lookup "title" kvs))
                           (default (PStr "") (dict_lookup "thumbnail" kvs))),
     mk_world (w_fs w2 ∖ {[fn]}) (w_clock w2) (w_trace w2)
              (w_tasks w2 ++ [DeleteTelegramMessage mid])).
Proof.
  intros Ed Eu. unfold process_video. py_unfold. rewrite Ed. cbn. rewrite Eu. cbn.
  by rewrite cleanup_and_respond_run.
Qed.

(** C6. Whatever yt-dlp and the Bot API do, the handler answers the envelope
    of §6 (so FastAPI sends it with HTTP 200): it never raises, the answer
    is a dict with unique keys and a ["status"] of ["success"] or
    ["error"], and the run adds at most one background task. *)
Theorem process_video_envelope rq w :
  ∃ resp, (process_video rq w).1 = Ok resp ∧ envelope_type resp ∧
    ∃ new, w_tasks (process_video rq w).2 = w_tasks w ++ new ∧ (length new ≤ 1)%nat.
Proof.
  destruct (process_video_contract rq w) as (resp & new & Hr & Ht & Hc).
  destruct (handler_contract_shape _ _ _ _ Hc). eauto 6.
Qed.

(** C11. A failed extraction answers the error dict with [str(e)], adds no
    task, and sends nothing to Telegram: the one visible event is the
    error log line of line 118. *)
Lemma process_video_extract_error rq w e w1 :
  download_media (url rq) (format_type rq) w = (Raise e, w1) →
  process_video rq w =
    (Ok (error_body e),
     mk_world (w_fs w1) (w_clock w1) (w_trace w ++ [EvLog (w_clock w1) ERROR (str_exc e)])
              (w_tasks w)).
Proof.
  intros Ed.
  pose proof (download_media_trace (url rq) (format_type rq) w) as Htr.
  pose proof (download_media_tasks (url rq) (format_type rq) w) as Hts.
  rewrite Ed in Htr, Hts. unfold same_trace, same_tasks in *. simpl in *.
  unfold process_video. py_unfold. rewrite Ed. cbn. by rewrite Htr, Hts.
Qed.

(** C3. When the upload raises, the answer is the error dict with [str(e)],
    no task is added, and the downloaded file stays in the working
    directory: the local cleanup of line 104 runs on the success path
    only. *)
Lemma process_video_upload_error_keeps_file rq w info fn w1 e w2 :
  download_media (url rq) (format_type rq) w = (Ok (info, fn), w1) →
  upload_to_telegram cfg fn w1 = (Raise e, w2) →
  fn ∈ w_fs w1 →
  (process_video rq w).1 = Ok (error_body e) ∧
  fn ∈ w_fs (process_video rq w).2 ∧
  w_tasks (process_video rq w).2 = w_tasks w.
Proof.
  intros Ed Eu Hin.
  pose proof (upload_to_telegram_fs cfg fn w1) as Hfs.
  pose proof (upload_to_telegram_tasks cfg fn w1) as Ht2.
  pose proof (download_media_tasks (url rq) (format_type rq) w) as Ht1.
  rewrite Ed in Ht1. rewrite Eu in Hfs, Ht2.
  unfold same_fs, same_tasks in *. simpl in *.
  unfold process_video. py_unfold. rewrite Ed. cbn. rewrite Eu. cbn.
  split; [done|]. split; [by rewrite <- Hfs|by rewrite Ht1, Ht2].
Qed.

End WithServices.

(** ** Witnesses, against the fixture collaborators *)
Import Fixtures.

Definition rq_audio : VideoRequest := mk_video_request "https://v.example/abc" "audio".

Lemma process_video_success_witness :
  let d := @download_media (mock_ydl "webm") (url rq_audio) (format_type rq_audio) empty_world in
  let u := @upload_to_telegram (mock_server ok_server) test_config "abc.mp3" d.2 in
  @process_video (mock_server ok_server) (mock_ydl "webm") test_config rq_audio empty_world =
    (Ok (success_body "https://api.telegram.org/file/botTOK/documents/file_7.mp4"
           (default (PStr "Video") (dict_lookup "title" (mock_info_kvs "webm")))
           (default (PStr "") (dict_lookup "thumbnail" (mock_info_kvs "webm")))),
     mk_world (w_fs u.2 ∖ {["abc.mp3"]}) (w_clock u.2) (w_trace u.2)
              (w_tasks u.2 ++ [DeleteTelegramMessage (PInt 42)])).
Proof.
  intros d u.
  apply (@process_video_success (mock_server ok_server) (mock_ydl "webm") test_config rq_audio
           empty_world (mock_info_kvs "webm") "abc.mp3" d.2
           "https://api.telegram.org/file/botTOK/documents/file_7.mp4" (PInt 42) u.2);
    vm_compute; reflexivity.
Defined.

Lemma process_video_upload_error_keeps_file_witness :
  let srv := mock_server (mk_server_params 500 200 200) in
  let r := @process_video srv (mock_ydl "webm") test_config rq_audio empty_world in
  r.1 = Ok (error_body (Exception "Telegram Upload Failed")) ∧
  "abc.mp3" ∈ w_fs r.2 ∧ w_tasks r.2 = w_tasks empty_world.
Proof.
  intros srv r.
  pose (d := @download_media (mock_ydl "webm") (url rq_audio) (format_type rq_audio) empty_world).
  apply (@process_video_upload_error_keeps_file srv (mock_ydl "webm") test_config rq_audio
           empty_world (mock_info "webm") "abc.mp3" d.2 (Exception "Telegram Upload Failed")
           (@upload_to_telegram srv test_config "abc.mp3" d.2).2).
  - vm_compute. reflexivity.
  - vm_compute. reflexivity.
  - vm_compute. reflexivity.
Defined.

Lemma process_video_extract_error_witness :
  @process_video (mock_server ok_server) failing_ydl test_config rq_audio empty_world =
    (Ok (error_body (DownloadError ("ERROR: Unsupported URL: " +:+ url rq_audio))),
     mk_world (w_fs empty_world) (w_clock empty_world)
       (w_trace empty_world ++
          [EvLog (w_clock empty_world) ERROR (str_exc (DownloadError ("ERROR: Unsupported URL: " +:+ url rq_audio)))])
       (w_tasks empty_world)).
Proof.
  apply (@process_video_extract_error (mock_server ok_server) failing_ydl test_config rq_audio
           empty_world (DownloadError ("ERROR: Unsupported URL: " +:+ url rq_audio)) empty_world).
  vm_compute. reflexivity.
Defined.

End Handler.
