(* ===== verification/Phases.v ===== *)
(** * The handler in phases, cut at its own HTTP requests

    [process_video] runs on the event loop and blocks it, but the
    threadpool threads of earlier requests run in parallel with it: a
    thread's [deleteMessage] can reach the Bot API between two requests
    of a handler run, and the clock moves while yt-dlp downloads.  For
    [Threads] to interleave them, the handler is cut into the phases
    between its own requests, each one step of the system:
    - [FExtract]: lines 72-97, the option dict and yt-dlp;
    - [FSend]: lines 48-57, [open] and [sendDocument], the status check and
      the two ids read from the answer ([upload_send]);
    - [FResolve]: lines 60-63, [getFile] and the URL ([upload_resolve]);
    - [FCleanup]: lines 102-115, the local cleanup, the task and the answer;
    an exception of any phase goes to the [except] of lines 117-119
    ([on_error]), which ends the run with the error dict ([FDone]).

    [upload_to_telegram_split] proves the two halves compose to
    [upload_to_telegram], and [run_phases_process_video] that the four
    phases run one after the other are [process_video]: same answer, same
    world, on every branch, so that [Threads] runs the code's handler. *)

From S2P Require Import Prelude PyStr PyValue PyRuntime Config Fixtures Telegram Extractor Handler.

Module Phases.
Import PyValue PyRuntime Config Telegram Extractor Handler.
Local Open Scope py_scope.

(** Where a handler run stands between two of its requests. *)
Inductive frame :=
| FExtract (rq : VideoRequest)
| FSend (info : pyval) (fn : string)
| FResolve (info : pyval) (fn : string) (file_id message_id : pyval)
| FCleanup (info : pyval) (fn : string) (link : string) (message_id : pyval)
| FDone (resp : pyval).

Section WithServices.
Context `{HttpTransport, YoutubeDL}.
Variable cfg : config.

(** Lines 48-57: the [sendDocument] half of [upload_to_telegram], up to
    the two ids read from its answer. *)
Definition upload_send (file_path : string) : Py (pyval * pyval) :=
  open_rb file_path;;
  response ← requests_send (send_document_request cfg file_path);
  if bool_decide (status_code response ≠ 200)
  then raise (Exception "Telegram Upload Failed")
  else
    result ← response_json response;
    r ← py_getitem result "result";
    doc ← py_getitem r "document";
    file_id ← py_getitem doc "file_id";
    r' ← py_getitem result "result";
    message_id ← py_getitem r' "message_id";
    mret (file_id, message_id).

(** Lines 60-63: the [getFile] half. *)
Definition upload_resolve (file_id message_id : pyval) : Py (string * pyval) :=
  path_response ← requests_send (get_file_request cfg file_id);
  pj ← response_json path_response;
  pr ← py_getitem pj "result";
  file_path_remote ← py_getitem pr "file_path";
  mret (TELEGRAM_FILE_URL cfg +:+ "/" +:+ py_str file_path_remote, message_id).

(** Lines 117-119: the [except] clause, which ends the run. *)
Definition on_error (e : pyexc) : Py frame :=
  logger_error (str_exc e);;
  mret (FDone (error_body e)).

(** One phase of the run, inside the [try] of line 71. *)
Definition phase (f : frame) : Py frame :=
  match f with
  | FExtract rq =>
      try: ('(info, fn) ← download_media (url rq) (format_type rq);
            mret (FSend info fn))
      except e => on_error e
  | FSend info fn =>
      try: ('(fid, mid) ← upload_send fn;
            mret (FResolve info fn fid mid))
      except e => on_error e
  | FResolve info fn fid mid =>
      try: ('(link, mid') ← upload_resolve fid mid;
            mret (FCleanup info fn link mid'))
      except e => on_error e
  | FCleanup info fn link mid =>
      try: (resp ← cleanup_and_respond info fn link mid;
            mret (FDone resp))
      except e => on_error e
  | FDone resp => mret (FDone resp)
  end.

(** How far a run is from its answer. *)
Definition frame_rank (f : frame) : nat :=
  match f with
  | FExtract _ => 4
  | FSend _ _ => 3
  | FResolve _ _ _ _ => 2
  | FCleanup _ _ _ _ => 1
  | FDone _ => 0
  end.

Definition frame_done (f : frame) : bool :=
  match f with
  | FDone _ => true
  | _ => false
  end.

(** The task a phase adds: the deletion, in the phase of lines 102-115. *)
Definition frame_task (f : frame) : list task :=
  match f with
  | FCleanup _ _ _ mid => [DeleteTelegramMessage mid]
  | _ => []
  end.

(** The four phases one after the other. *)
Definition run_phases (f : frame) : Py frame :=
  f1 ← phase f;
  f2 ← phase f1;
  f3 ← phase f2;
  phase f3.

(** ** Frames and running a phase *)

#[export] Instance upload_send_mono f : PyMono (upload_send f).
Proof. unfold upload_send. apply _. Qed.
#[export] Instance upload_send_tasks f : Preserves same_tasks (upload_send f).
Proof. unfold upload_send. apply _. Qed.
#[export] Instance upload_resolve_mono fid mid : PyMono (upload_resolve fid mid).
Proof. unfold upload_resolve. apply _. Qed.
#[export] Instance upload_resolve_tasks fid mid : Preserves same_tasks (upload_resolve fid mid).
Proof. unfold upload_resolve. apply _. Qed.
#[export] Instance on_error_mono e : PyMono (on_error e).
Proof. unfold on_error. apply _. Qed.
#[export] Instance on_error_tasks e : Preserves same_tasks (on_error e).
Proof. unfold on_error. apply _. Qed.
#[export] Instance phase_mono f : PyMono (phase f).
Proof. destruct f; unfold phase, cleanup_and_respond; apply _. Qed.

(** A phase never raises: the [except] of line 117 catches everything. *)
Lemma try_on_error_ok {A} (c : Py A) (k : A → Py frame) w :
  (∀ a w', ∃ f, (k a w').1 = Ok f) →
  ∃ f, ((try: (a ← c; k a) except e => on_error e) w).1 = Ok f.
Proof.
  intros Hk. py_unfold. destruct (c w) as [[a|e] w']; cbn; [|by eexists].
  destruct (Hk a w') as [f Hf]. destruct (k a w') as [[f'|e] w'']; simpl in *; [by eexists|done].
Qed.

Lemma phase_ok f w : ∃ f', phase f w = (Ok f', (phase f w).2).
Proof.
  assert (∃ f', (phase f w).1 = Ok f') as [f' Hf].
  { destruct f; cbn [phase]; try (by eexists);
      apply try_on_error_ok; intros [] ?; by eexists. }
  exists f'. by rewrite <- Hf, <- surjective_pairing.
Qed.

(** Every phase of a run that has not answered moves it closer. *)
Lemma phase_rank f w f' w' :
  frame_done f = false → phase f w = (Ok f', w') → (frame_rank f' < frame_rank f)%nat.
Proof.
  destruct f; cbn [frame_done phase]; intros Hd; [..|discriminate]; unfold on_error; py_unfold;
    repeat (case_match; simplify_eq/=); intros; simplify_eq/=; try lia.
Qed.

(** The tasks of the run change only in the phase of lines 102-115, which
    adds the deletion whether or not it then raises. *)
Lemma phase_tasks f w : w_tasks (phase f w).2 = w_tasks w ++ frame_task f.
Proof.
  destruct f as [rq|info fn|info fn fid mid|info fn link mid|resp]; cbn [frame_task];
    rewrite ?app_nil_r; [..|done].
  1-3: symmetry; revert w; change (Preserves same_tasks (phase (FExtract rq)))
         || change (Preserves same_tasks (phase (FSend info fn)))
         || change (Preserves same_tasks (phase (FResolve info fn fid mid)));
       unfold phase; apply _.
  unfold phase, on_error. py_unfold. rewrite cleanup_and_respond_run.
  by destruct (respond_outcome info link).
Qed.

(** ** Properties *)

(** The two halves compose to lines 46-63. *)
Lemma upload_to_telegram_split f w :
  upload_to_telegram cfg f w = ('(fid, mid) ← upload_send f; upload_resolve fid mid) w.
Proof.
  unfold upload_to_telegram, upload_send, upload_resolve. py_unfold.
  repeat (case_match; simplify_eq/=); reflexivity.
Qed.

Lemma run_phases_process_video rq w :
  run_phases (FExtract rq) w =
    match process_video cfg rq w with
    | (Ok resp, w') => (Ok (FDone resp), w')
    | (Raise e, w') => (Raise e, w')
    end.
Proof.
  unfold run_phases, process_video. cbn [phase]. py_unfold.
  destruct (download_media (url rq) (format_type rq) w) as [[[info fn]|e] w1];
    cbn [phase]; py_unfold; cbn; [|done].
  rewrite upload_to_telegram_split. py_unfold.
  destruct (upload_send fn w1) as [[[fid mid]|e] w2]; cbn [phase]; py_unfold; cbn; [|done].
  destruct (upload_resolve fid mid w2) as [[[link mid']|e] w3]; cbn [phase]; py_unfold; cbn; [|done].
  by destruct (cleanup_and_respond info fn link mid' w3) as [[resp|e] w4].
Qed.

End WithServices.

End Phases.
