(* ===== verification/Ledger.v ===== *)
(** * The ledger of the background work

    What [Threads] records of the deletions, and the bookkeeping lemmas it
    keeps about them: the deletions sent for a request as the tasks they
    ran ([deleted_of]), and the invariant [ledger_ok] that ties, for any
    kind of record of the background work, the tasks each handler
    scheduled to those sent and those left to send.  Also the passing of
    time on the world ([with_clock]). *)

From S2P Require Import Prelude PyStr PyValue PyRuntime Config Fixtures Telegram Extractor Handler.

Module Ledger.
Import PyValue PyRuntime.

(** The clock moved on to [c]. *)
Definition with_clock (w : World) (c : Z) : World :=
  mk_world (w_fs w) c (w_trace w) (w_tasks w).

(** The deletions sent for request [n], as the tasks they ran. *)
Definition deleted_of (n : nat) (del : list (nat * pyval * Z)) : list task :=
  (λ d, DeleteTelegramMessage d.1.2) <$> filter (λ d, d.1.1 = n) del.

Lemma deleted_of_app n del d :
  deleted_of n (del ++ [d]) =
    deleted_of n del ++ (if decide (d.1.1 = n) then [DeleteTelegramMessage d.1.2] else []).
Proof.
  unfold deleted_of. rewrite filter_app, fmap_app, filter_cons, filter_nil.
  by case_decide.
Qed.

Lemma deleted_of_fresh n del :
  (∀ m mid t, (m, mid, t) ∈ del → m ≠ n) → deleted_of n del = [].
Proof.
  unfold deleted_of. induction del as [|[[m mid] t] del IH]; intros Hf; [done|].
  rewrite filter_cons_False; [apply IH; set_solver|].
  simpl. apply (Hf m mid t). by left.
Qed.

(** The ledger of the background work, for any record of it: the
    request ids are distinct and already given out, every deletion sent belongs to a request with background work,
    and what each handler scheduled is what was sent for it followed by
    what is left to send. *)
Section Ledger.
Context {R : Type} (req : R → nat) (tasks sched : R → list task).

Definition ledger_ok (rs : list R) (del : list (nat * pyval * Z)) (next : nat) : Prop :=
  NoDup (req <$> rs) ∧
  (∀ r, r ∈ rs → (req r < next)%nat) ∧
  (∀ n mid t, (n, mid, t) ∈ del → ∃ r, r ∈ rs ∧ req r = n) ∧
  (∀ r, r ∈ rs → sched r = deleted_of (req r) del ++ tasks r).

Lemma ledger_nil next : ledger_ok [] [] next.
Proof. split; [constructor|]. split_and!; intros *; rewrite elem_of_nil; done. Qed.

Lemma ledger_next_mono rs del next next' :
  (next ≤ next')%nat → ledger_ok rs del next → ledger_ok rs del next'.
Proof. intros Hle (L1 & L2 & L3 & L4). split_and!; [done| |done|done]. intros r Hr. specialize (L2 r Hr). lia. Qed.

Lemma ledger_fresh rs del next : ledger_ok rs del next → next ∉ (req <$> rs).
Proof. intros (_ & L2 & _) (r & Heq & Hr)%list_elem_of_fmap. specialize (L2 r Hr). lia. Qed.

(** A request whose handler has answered gets its record. *)
Lemma ledger_add rs del next r :
  req r ∉ (req <$> rs) → (req r < next)%nat → sched r = tasks r →
  ledger_ok rs del next → ledger_ok (rs ++ [r]) del next.
Proof.
  intros Hfresh Hlt Hs (L1 & L2 & L3 & L4). split_and!.
  - rewrite fmap_app. apply NoDup_app. split; [done|]. split; [|apply NoDup_singleton].
    intros m Hm Hm'. apply list_elem_of_singleton in Hm'. subst m. done.
  - intros r' [Hr'|Hr'%list_elem_of_singleton]%elem_of_app; [by apply L2|by subst].
  - intros n mid t Hd. destruct (L3 n mid t Hd) as (r' & Hr' & <-). exists r'. set_solver.
  - intros r' [Hr'|Hr'%list_elem_of_singleton]%elem_of_app; [by apply L4|subst r'].
    rewrite deleted_of_fresh; [done|]. intros m mid t Hd Heq.
    destruct (L3 m mid t Hd) as (r' & Hr' & Heq'). apply Hfresh. rewrite <- Heq, <- Heq'.
    by apply list_elem_of_fmap_2.
Qed.

(** The other records of a request that is not [r]'s. *)
Lemma ledger_others rs_b rs_a r del next :
  ledger_ok (rs_b ++ r :: rs_a) del next → ∀ x, x ∈ rs_b ++ rs_a → req x ≠ req r.
Proof.
  intros (L1 & _) x Hx Heq. rewrite fmap_app, fmap_cons in L1.
  apply NoDup_app in L1 as (_ & Hdis & Hnd2). apply elem_of_app in Hx as [Hx|Hx].
  - apply (Hdis (req x)); [by apply list_elem_of_fmap_2|rewrite Heq; left].
  - apply NoDup_cons in Hnd2 as [Hn _]. apply Hn. rewrite <- Heq. by apply list_elem_of_fmap_2.
Qed.

(** The record of [r] replaced by one of the same request and the same
    tasks (a thread taken or given back). *)
Lemma ledger_update rs_b rs_a r r' del next :
  req r' = req r → tasks r' = tasks r → sched r' = sched r →
  ledger_ok (rs_b ++ r :: rs_a) del next → ledger_ok (rs_b ++ r' :: rs_a) del next.
Proof.
  intros Hq Ht Hs Hl. pose proof (ledger_others _ _ _ _ _ Hl) as Hoth.
  destruct Hl as (L1 & L2 & L3 & L4). split_and!.
  - by rewrite !fmap_app, !fmap_cons, Hq in *.
  - intros x [Hx|[->|Hx]%elem_of_cons]%elem_of_app; [|rewrite Hq|]; apply L2; set_solver.
  - intros n mid t Hd. destruct (L3 n mid t Hd) as (x & Hx & <-).
    apply elem_of_app in Hx as [Hx|[->|Hx]%elem_of_cons];
      [exists x; set_solver|exists r'; split; [set_solver|done]|exists x; set_solver].
  - intros x [Hx|[->|Hx]%elem_of_cons]%elem_of_app; [|rewrite Hq, Ht, Hs|]; apply L4; set_solver.
Qed.

(** The first task of [r] has been run: its deletion is recorded as sent. *)
Lemma ledger_fire rs_b rs_a r r' mid t del next :
  tasks r = DeleteTelegramMessage mid :: tasks r' → req r' = req r → sched r' = sched r →
  ledger_ok (rs_b ++ r :: rs_a) del next →
  ledger_ok (rs_b ++ r' :: rs_a) (del ++ [(req r, mid, t)]) next.
Proof.
  intros Ht Hq Hs Hl. pose proof (ledger_others _ _ _ _ _ Hl) as Hoth.
  destruct Hl as (L1 & L2 & L3 & L4). split_and!.
  - by rewrite !fmap_app, !fmap_cons, Hq in *.
  - intros x [Hx|[->|Hx]%elem_of_cons]%elem_of_app; [|rewrite Hq|]; apply L2; set_solver.
  - intros n mid' t' [Hd|Hd%list_elem_of_singleton]%elem_of_app.
    + destruct (L3 n mid' t' Hd) as (x & Hx & <-).
      apply elem_of_app in Hx as [Hx|[->|Hx]%elem_of_cons];
        [exists x; set_solver|exists r'; split; [set_solver|done]|exists x; set_solver].
    + simplify_eq. exists r'. split; [set_solver|done].
  - intros x [Hx|[->|Hx]%elem_of_cons]%elem_of_app; rewrite deleted_of_app; simpl.
    + rewrite decide_False; [rewrite app_nil_r; apply L4; set_solver|].
      apply not_eq_sym, Hoth. set_solver.
    + rewrite Hq, decide_True by done. rewrite Hs, L4, Ht by set_solver. by rewrite <- app_assoc.
    + rewrite decide_False; [rewrite app_nil_r; apply L4; set_solver|].
      apply not_eq_sym, Hoth. set_solver.
Qed.

End Ledger.

End Ledger.
