(* ===== verification/Threads.v ===== *)
(** * Many requests, with the handler's requests interleaved with the threads

    The model of §5 and of how uvicorn, Starlette and anyio run the
    code (framework behaviour, modelled from their documented behaviour):
    - the event loop runs one handler at a time ([ts_loop], an option as
      for an ideal uniprocessor): [process_video] is an [async def] with
      no [await], so once started it blocks the loop until it answers;
      its phases ([Phases.phase]) are separate steps, so that between two
      of its HTTP requests the threads of earlier requests act and the
      clock moves ([tstep_phase]);
    - the answer is sent when the run ends ([tstep_finish]); Starlette then
      runs the request's background tasks one after the other, each sync
      task through [run_in_threadpool]: it waits for one of anyio's
      [thread_pool_size] thread tokens ([tstep_acquire]), sleeps 60
      seconds in that thread, sends the [deleteMessage] of lines 39-44 and
      gives the token back ([tstep_fire]);
    - time passes ([tstep_tick]).
    The scheduler is left free: any enabled step may come next, so the
    safety theorems hold for every schedule the runtime can take, and the
    liveness theorem builds one schedule.

    The one-at-a-time event loop and the pool's bound are built into the
    steps (they are how the runtime works, not properties of the code);
    the theorems are about what the code does inside them: in every
    reachable state each deletion is sent at least 60 seconds after the
    response of the request that scheduled it; the deletions sent for a request are a
    prefix of the at most one task its handler scheduled; and every run
    can be completed so that each scheduled deletion is sent exactly
    once. *)

From S2P Require Import Prelude PyStr PyValue PyRuntime Config Fixtures Telegram Extractor Handler Phases Ledger.

Module Threads.
Import PyValue PyRuntime Config Telegram Handler Phases Ledger.

(** anyio's default limiter of the worker threads [run_in_threadpool]
    uses. *)
Definition thread_pool_size : nat := 40.

(** The background tasks of one answered request: the tasks not yet run,
    the thread the current one holds ([None]: waiting for a token;
    [Some wake]: in a thread, sleeping until [wake]), and (ghost) the tasks
    the handler scheduled. *)
Record worker := mk_worker {
  wk_req : nat;
  wk_tasks : list task;
  wk_thread : option Z;
  wk_sched : list task
}.

Record TSys := mk_tsys {
  ts_world : World;
  ts_inbox : list VideoRequest;
  ts_next : nat;
  ts_loop : option (nat * frame);
  ts_workers : list worker;
  ts_responded : list (nat * Z * pyval);
  ts_deleted : list (nat * pyval * Z)
}.

(** The thread tokens taken. *)
Definition busy (wks : list worker) : nat :=
  length (filter (λ k, is_Some (wk_thread k)) wks).

Section Steps.
Context `{HttpTransport, YoutubeDL}.
Variable cfg : config.

Inductive tstep : TSys → TSys → Prop :=
| tstep_start w rq rest n wks rl dl :
    tstep (mk_tsys w (rq :: rest) n None wks rl dl)
          (mk_tsys (mk_world (w_fs w) (w_clock w) (w_trace w) []) rest (S n)
                   (Some (n, FExtract rq)) wks rl dl)
| tstep_phase w inbox n m f f' w' wks rl dl :
    frame_done f = false →
    phase cfg f w = (Ok f', w') →
    tstep (mk_tsys w inbox n (Some (m, f)) wks rl dl)
          (mk_tsys w' inbox n (Some (m, f')) wks rl dl)
| tstep_finish w inbox n m resp wks rl dl :
    tstep (mk_tsys w inbox n (Some (m, FDone resp)) wks rl dl)
          (mk_tsys (mk_world (w_fs w) (w_clock w) (w_trace w ++ [EvRespond (w_clock w) resp]) (w_tasks w))
                   inbox n None (wks ++ [mk_worker m (w_tasks w) None (w_tasks w)])
                   (rl ++ [(m, w_clock w, resp)]) dl)
| tstep_acquire w inbox n lp before after k t ts rl dl :
    wk_tasks k = t :: ts →
    wk_thread k = None →
    (busy (before ++ k :: after) < thread_pool_size)%nat →
    tstep (mk_tsys w inbox n lp (before ++ k :: after) rl dl)
          (mk_tsys w inbox n lp
                   (before ++ mk_worker (wk_req k) (wk_tasks k)
                                (Some (w_clock w + Z.of_nat grace_period)) (wk_sched k) :: after)
                   rl dl)
| tstep_fire w inbox n lp before after k mid ts wake rl dl w' :
    wk_tasks k = DeleteTelegramMessage mid :: ts →
    wk_thread k = Some wake →
    wake ≤ w_clock w →
    delete_message_now cfg mid w = (Ok (), w') →
    tstep (mk_tsys w inbox n lp (before ++ k :: after) rl dl)
          (mk_tsys w' inbox n lp (before ++ mk_worker (wk_req k) ts None (wk_sched k) :: after)
                   rl (dl ++ [(wk_req k, mid, w_clock w)]))
| tstep_tick w inbox n lp wks rl dl d :
    0 < d →
    tstep (mk_tsys w inbox n lp wks rl dl)
          (mk_tsys (with_clock w (w_clock w + d)) inbox n lp wks rl dl).

Definition init_tsys (w : World) (inbox : list VideoRequest) : TSys :=
  mk_tsys w inbox 0 None [] [] [].

Definition treachable (w : World) (inbox : list VideoRequest) (s : TSys) : Prop :=
  rtc tstep (init_tsys w inbox) s.

(** ** Invariants *)

(** Each answer is in the trace, and each deletion too, sent at least
    [grace_period] seconds after the answer of its request; a sleeping
    thread wakes no earlier. *)
Definition tinv_of (w : World) (wks : list worker) (rl : list (nat * Z * pyval))
    (dl : list (nat * pyval * Z)) : Prop :=
  (∀ k, k ∈ wks → ∃ t0 resp, (wk_req k, t0, resp) ∈ rl ∧
     ∀ wake, wk_thread k = Some wake → t0 + Z.of_nat grace_period ≤ wake) ∧
  (∀ n mid t, (n, mid, t) ∈ dl →
     EvHttp t (delete_message_request cfg mid) ∈ w_trace w ∧
     ∃ t0 resp, (n, t0, resp) ∈ rl ∧ t0 + Z.of_nat grace_period ≤ t) ∧
  (∀ n t0 resp, (n, t0, resp) ∈ rl → EvRespond t0 resp ∈ w_trace w ∧ t0 ≤ w_clock w).

Definition tinv (s : TSys) : Prop :=
  tinv_of (ts_world s) (ts_workers s) (ts_responded s) (ts_deleted s).

Lemma tinv_wle w w' wks rl dl : wle w w' → tinv_of w wks rl dl → tinv_of w' wks rl dl.
Proof.
  intros Hle (I1 & I2 & I3). split_and!; [done| |].
  - intros n mid t Hd. destruct (I2 n mid t Hd) as [Hev ?]. split; [by eapply wle_elem_of|done].
  - intros n t0 resp Hin. destruct (I3 n t0 resp Hin) as [Hev Ht].
    split; [by eapply wle_elem_of|destruct Hle; lia].
Qed.

Lemma tinv_step s s' : tstep s s' → tinv s → tinv s'.
Proof.
  unfold tinv.
  destruct 1 as [w rq rest n wks rl dl|w inbox n m f f' w' wks rl dl Hdone Hp
                |w inbox n m resp wks rl dl|w inbox n lp before after k t ts rl dl Ht Hth Hb
                |w inbox n lp before after k mid ts wake rl dl w' Ht Hth Hwake Hd
                |w inbox n lp wks rl dl d Hd];
    cbn [ts_world ts_workers ts_responded ts_deleted]; intros Hi.
  - apply (tinv_wle w); [by apply wle_same_trace|done].
  - apply (tinv_wle w); [|done]. pose proof (phase_mono cfg f w) as Hm. by rewrite Hp in Hm.
  - destruct Hi as (I1 & I2 & I3). split_and!.
    + intros k [Hk|Hk%list_elem_of_singleton]%elem_of_app.
      * destruct (I1 k Hk) as (t0 & r0 & Hin & Hw). exists t0, r0. split; [set_solver|done].
      * subst k. exists (w_clock w), resp. split; [set_solver|discriminate].
    + intros n' mid t Hd'. destruct (I2 _ _ _ Hd') as (Hev & t0 & r0 & Hin & Ht0).
      split; [simpl; set_solver|]. exists t0, r0. split; [set_solver|done].
    + intros n' t0 r0 [Hin|Hin%list_elem_of_singleton]%elem_of_app.
      * destruct (I3 _ _ _ Hin). split; [simpl; set_solver|simpl; lia].
      * simplify_eq. split; [simpl; set_solver|simpl; lia].
  - destruct Hi as (I1 & I2 & I3). split_and!; [|done|done].
    intros k' [Hk|[->|Hk]%elem_of_cons]%elem_of_app; [apply I1; set_solver| |apply I1; set_solver].
    destruct (I1 k ltac:(set_solver)) as (t0 & r0 & Hin & _). exists t0, r0. split; [done|].
    intros wake [= <-]. destruct (I3 _ _ _ Hin) as [_ Ht0]. lia.
  - destruct (delete_message_now_shape cfg mid w) as (lvl & msg & Hs).
    rewrite Hd in Hs. injection Hs as ->.
    destruct Hi as (I1 & I2 & I3).
    destruct (I1 k ltac:(set_solver)) as (t0 & r0 & Hin & Hwk).
    split_and!.
    + intros k' [Hk|[->|Hk]%elem_of_cons]%elem_of_app; [apply I1; set_solver| |apply I1; set_solver].
      exists t0, r0. split; [done|discriminate].
    + intros n' mid' t [Hd'|Hd'%list_elem_of_singleton]%elem_of_app.
      * destruct (I2 _ _ _ Hd') as (Hev & rest). split; [simpl; set_solver|done].
      * simplify_eq. split; [simpl; set_solver|]. exists t0, r0. split; [done|].
        specialize (Hwk wake Hth). lia.
    + intros n' t0' r0' Hin'. destruct (I3 _ _ _ Hin'). split; [simpl; set_solver|simpl; lia].
  - apply (tinv_wle w); [apply wle_same_trace; lia|done].
Qed.

(** No more than [thread_pool_size] tokens are taken, and a thread is
    only held for a task. *)
Definition pool_inv (s : TSys) : Prop :=
  (busy (ts_workers s) ≤ thread_pool_size)%nat ∧
  ∀ k, k ∈ ts_workers s → is_Some (wk_thread k) → wk_tasks k ≠ [].

Lemma busy_split before k after :
  busy (before ++ k :: after) =
    (busy before + (if decide (is_Some (wk_thread k)) then 1 else 0) + busy after)%nat.
Proof. unfold busy. rewrite filter_app, filter_cons, length_app. case_decide; simpl; lia. Qed.

Lemma pool_inv_step s s' : tstep s s' → pool_inv s → pool_inv s'.
Proof.
  unfold pool_inv.
  destruct 1 as [w rq rest n wks rl dl|w inbox n m f f' w' wks rl dl Hdone Hp
                |w inbox n m resp wks rl dl|w inbox n lp before after k t ts rl dl Ht Hth Hb
                |w inbox n lp before after k mid ts wake rl dl w' Ht Hth Hwake Hd
                |w inbox n lp wks rl dl d Hd];
    cbn [ts_workers]; intros [Hb' Hk]; try (by split).
  - split.
    + unfold busy in *. rewrite filter_app, filter_cons, filter_nil, length_app.
      rewrite decide_False by (by intros []). simpl. lia.
    + intros k [Hk'|Hk'%list_elem_of_singleton]%elem_of_app; [by apply Hk|subst k; by intros []].
  - rewrite !busy_split in *. rewrite Hth in Hb. cbn [wk_thread]. split.
    + rewrite decide_False in Hb by (by intros []). rewrite decide_True by by eexists. lia.
    + intros k' [Hk'|[->|Hk']%elem_of_cons]%elem_of_app; [apply Hk; set_solver| |apply Hk; set_solver].
      intros _. simpl. by rewrite Ht.
  - rewrite !busy_split in *. split.
    + rewrite Hth, decide_True in Hb' by by eexists. cbn [wk_thread].
      rewrite decide_False by (by intros []). lia.
    + intros k' [Hk'|[->|Hk']%elem_of_cons]%elem_of_app; [apply Hk; set_solver| |apply Hk; set_solver].
      by intros [].
Qed.

(** A handler run schedules at most one deletion: none before the phase
    of lines 102-115, at most one after it. *)
Definition frame_left (f : frame) : nat := if frame_done f then 0 else 1.

Definition tcount_inv (s : TSys) : Prop :=
  (∀ k, k ∈ ts_workers s → length (wk_sched k) ≤ 1)%nat ∧
  ∀ m f, ts_loop s = Some (m, f) → (length (w_tasks (ts_world s)) + frame_left f ≤ 1)%nat.

Lemma phase_count f w f' w' :
  frame_done f = false → phase cfg f w = (Ok f', w') →
  (length (w_tasks w) + frame_left f ≤ 1 → length (w_tasks w') + frame_left f' ≤ 1)%nat.
Proof.
  intros Hd Hp. pose proof (phase_tasks cfg f w) as Ht. pose proof (phase_rank cfg f w f' w' Hd Hp) as Hr.
  rewrite Hp in Ht. simpl in Ht. rewrite Ht, length_app.
  destruct f, f'; unfold frame_left in *; simpl in *; lia.
Qed.

Lemma tcount_inv_step s s' : tstep s s' → tcount_inv s → tcount_inv s'.
Proof.
  unfold tcount_inv.
  destruct 1 as [w rq rest n wks rl dl|w inbox n m f f' w' wks rl dl Hdone Hp
                |w inbox n m resp wks rl dl|w inbox n lp before after k t ts rl dl Ht Hth Hb
                |w inbox n lp before after k mid ts wake rl dl w' Ht Hth Hwake Hd
                |w inbox n lp wks rl dl d Hd];
    cbn [ts_workers ts_loop ts_world]; intros [Hk Hl].
  - split; [done|]. intros ?? [= <- <-]. done.
  - split; [done|]. intros ?? [= <- <-]. by apply (phase_count f w), (Hl m f).
  - split; [|done]. intros k [Hk'|Hk'%list_elem_of_singleton]%elem_of_app; [by apply Hk|subst k].
    specialize (Hl m (FDone resp) eq_refl). simpl in *. lia.
  - split; [|done]. intros k' [Hk'|[->|Hk']%elem_of_cons]%elem_of_app;
      [apply Hk; set_solver|apply (Hk k); set_solver|apply Hk; set_solver].
  - destruct (delete_message_now_shape cfg mid w) as (lvl & msg & Hs).
    rewrite Hd in Hs. injection Hs as ->. simpl.
    split; [|done]. intros k' [Hk'|[->|Hk']%elem_of_cons]%elem_of_app;
      [apply Hk; set_solver|apply (Hk k); set_solver|apply Hk; set_solver].
  - split; [done|]. apply Hl.
Qed.

(** The ledger of the background work, and the run in progress has no
    record yet. *)
Definition tonce (s : TSys) : Prop :=
  ledger_ok wk_req wk_tasks wk_sched (ts_workers s) (ts_deleted s) (ts_next s) ∧
  ∀ m f, ts_loop s = Some (m, f) → (m ∉ wk_req <$> ts_workers s) ∧ (m < ts_next s)%nat.

Lemma worker_ids_replace before after k k' :
  wk_req k' = wk_req k → wk_req <$> before ++ k' :: after = wk_req <$> before ++ k :: after.
Proof. intros Hq. by rewrite !fmap_app, !fmap_cons, Hq. Qed.

Lemma tonce_step s s' : tstep s s' → tonce s → tonce s'.
Proof.
  unfold tonce.
  destruct 1 as [w rq rest n wks rl dl|w inbox n m f f' w' wks rl dl Hdone Hp
                |w inbox n m resp wks rl dl|w inbox n lp before after k t ts rl dl Ht Hth Hb
                |w inbox n lp before after k mid ts wake rl dl w' Ht Hth Hwake Hd
                |w inbox n lp wks rl dl d Hd];
    cbn [ts_workers ts_loop ts_next ts_deleted]; intros [Hl Hloop].
  - split; [by apply ledger_next_mono with n; [lia|]|].
    intros ?? [= <- _]. split; [by apply (ledger_fresh _ _ _ _ _ _ Hl)|lia].
  - split; [done|]. intros ?? [= <- _]. by apply (Hloop m f).
  - destruct (Hloop m (FDone resp) eq_refl) as [Hfresh Hlt].
    split; [by apply ledger_add|done].
  - split; [by apply (ledger_update wk_req wk_tasks wk_sched before after k)|]. intros m f Hm. rewrite (worker_ids_replace before after k) by done. by apply (Hloop m f).
  - split; [by apply (ledger_fire wk_req wk_tasks wk_sched before after k)|]. intros m f Hm. rewrite (worker_ids_replace before after k) by done. by apply (Hloop m f).
  - done.
Qed.

(** ** Completing the work *)

Definition wpending (wks : list worker) : nat := sum_list_with (λ k, length (wk_tasks k)) wks.

Lemma wpending_split before k after :
  wpending (before ++ k :: after) = (wpending before + length (wk_tasks k) + wpending after)%nat.
Proof. unfold wpending. rewrite sum_list_with_app. simpl. lia. Qed.

(** The event loop can always finish the run in progress. *)
Lemma finish_run s : ∃ s', rtc tstep s s' ∧ ts_loop s' = None ∧ ts_inbox s' = ts_inbox s.
Proof.
  destruct s as [w inbox n [[m f]|] wks rl dl]; [|by eexists; split].
  revert w. remember (frame_rank f) as r eqn:Er. revert f Er.
  induction r as [r IH] using lt_wf_ind. intros f -> w.
  destruct (frame_done f) eqn:Hd.
  - destruct f as [| | | |resp]; try discriminate.
    eexists. split; [apply rtc_once, tstep_finish|by split].
  - destruct (phase_ok cfg f w) as [f' Hp].
    destruct (IH (frame_rank f')) with (f := f') (w := (phase cfg f w).2)
      as (s' & Hs' & Hl & Hi); [|reflexivity|].
    { by apply (phase_rank cfg f w f' (phase cfg f w).2). }
    exists s'. split; [|done]. eapply rtc_l; [by apply tstep_phase|exact Hs'].
Qed.

(** The event loop can serve every request of the inbox. *)
Lemma tserve_all s : ∃ s', rtc tstep s s' ∧ ts_inbox s' = [] ∧ ts_loop s' = None.
Proof.
  destruct (finish_run s) as (s1 & H1 & Hl1 & Hi1).
  destruct s1 as [w inbox n lp wks rl dl]. simpl in Hl1, Hi1. subst lp. clear Hi1.
  revert w n wks rl dl H1. induction inbox as [|rq rest IH]; intros w n wks rl dl H1.
  - eexists. split; [exact H1|by split].
  - destruct (finish_run (mk_tsys (mk_world (w_fs w) (w_clock w) (w_trace w) []) rest (S n)
                                  (Some (n, FExtract rq)) wks rl dl))
      as ([w2 inbox2 n2 lp2 wks2 rl2 dl2] & H2 & Hl2 & Hi2).
    simpl in Hl2, Hi2. subst lp2 inbox2.
    apply (IH w2 n2 wks2 rl2 dl2). etrans; [exact H1|]. eapply rtc_l; [apply tstep_start|exact H2].
Qed.

(** A thread that holds a token can always send its deletion: the clock
    runs to the end of its sleep, then it fires. *)
Lemma twait_and_fire w inbox n lp before after k mid ts wake rl dl :
  wk_tasks k = DeleteTelegramMessage mid :: ts → wk_thread k = Some wake →
  ∃ w' t, rtc tstep (mk_tsys w inbox n lp (before ++ k :: after) rl dl)
            (mk_tsys w' inbox n lp (before ++ mk_worker (wk_req k) ts None (wk_sched k) :: after)
                     rl (dl ++ [(wk_req k, mid, t)])).
Proof.
  intros Ht Hth.
  set (w1 := if decide (w_clock w < wake) then with_clock w wake else w).
  assert (Hw1 : rtc tstep (mk_tsys w inbox n lp (before ++ k :: after) rl dl)
                          (mk_tsys w1 inbox n lp (before ++ k :: after) rl dl) ∧ wake ≤ w_clock w1).
  { unfold w1. case_decide.
    - split; [|simpl; lia]. apply rtc_once.
      replace wake with (w_clock w + (wake - w_clock w)) at 1 by lia. apply tstep_tick. lia.
    - split; [done|lia]. }
  destruct Hw1 as [Hsteps Hwake].
  destruct (delete_message_now_shape cfg mid w1) as (lvl & msg & Hd).
  eexists _, (w_clock w1). etrans; [exact Hsteps|].
  apply rtc_once. eapply tstep_fire; [exact Ht|exact Hth|exact Hwake|exact Hd].
Qed.

Lemma pool_inv_rtc s s' : rtc tstep s s' → pool_inv s → pool_inv s'.
Proof. intros Hr Hp. by apply (rtc_invariant tstep pool_inv s s'); [apply pool_inv_step| |]. Qed.

(** Every pending deletion can be sent, without serving anything: a
    thread that holds a token fires; when none does, a token is free. *)
Lemma tfire_all s :
  pool_inv s →
  ∃ s', rtc tstep s s' ∧ ts_inbox s' = ts_inbox s ∧ ts_loop s' = ts_loop s ∧
        ∀ k, k ∈ ts_workers s' → wk_tasks k = [].
Proof.
  remember (wpending (ts_workers s)) as m eqn:Em. revert s Em.
  induction m as [m IH] using lt_wf_ind. intros [w inbox n lp wks rl dl] -> Hpool. simpl.
  assert (Hnext : ∀ s1, rtc tstep (mk_tsys w inbox n lp wks rl dl) s1 →
            ts_inbox s1 = inbox → ts_loop s1 = lp → (wpending (ts_workers s1) < wpending wks)%nat →
            ∃ s', rtc tstep (mk_tsys w inbox n lp wks rl dl) s' ∧ ts_inbox s' = inbox ∧
                  ts_loop s' = lp ∧ ∀ k, k ∈ ts_workers s' → wk_tasks k = []).
  { intros s1 Hs1 Hi1 Hl1 Hlt.
    destruct (IH _ Hlt s1 eq_refl (pool_inv_rtc _ _ Hs1 Hpool)) as (s' & Hs' & Hi & Hl & Hdone).
    exists s'. split; [by etrans|]. by rewrite Hi, Hl. }
  destruct (filter (λ k, is_Some (wk_thread k)) wks) as [|k rest] eqn:Ef.
  - assert (Hdec : ∀ k : worker, Decision (length (wk_tasks k) = 0%nat)) by (intros; apply _).
    destruct (decide (Forall (λ k, length (wk_tasks k) = 0%nat) wks)) as [Hall|Hsome].
    + exists (mk_tsys w inbox n lp wks rl dl). split_and!; [done..|].
      intros k Hk. rewrite Forall_forall in Hall. apply nil_length_inv, Hall, Hk.
    + apply (not_Forall_Exists _) in Hsome. apply Exists_exists in Hsome as (k & Hk & Hne).
      assert (Hth : wk_thread k = None).
      { destruct (wk_thread k) eqn:E; [|done].
        assert (Hf : k ∈ filter (λ k, is_Some (wk_thread k)) wks)
          by (apply list_elem_of_filter; split; [by rewrite E|done]).
        rewrite Ef in Hf. set_solver. }
      apply list_elem_of_split in Hk as (before & after & ->).
      destruct (wk_tasks k) as [|[mid] ts] eqn:Ht; [by exfalso; apply Hne; simpl; rewrite Ht|].
      set (k1 := mk_worker (wk_req k) (wk_tasks k) (Some (w_clock w + Z.of_nat grace_period)) (wk_sched k)).
      destruct (twait_and_fire w inbox n lp before after k1 mid ts (w_clock w + Z.of_nat grace_period) rl dl)
        as (w' & t & Hf); [by simpl; rewrite Ht|done|].
      eapply Hnext; [eapply rtc_l; [eapply tstep_acquire; [exact Ht|exact Hth|]|exact Hf]|done|done|].
      * unfold busy. rewrite Ef. unfold thread_pool_size. simpl. lia.
      * simpl. rewrite !wpending_split, Ht. simpl. lia.
  - assert (Hk : k ∈ filter (λ k, is_Some (wk_thread k)) wks) by (rewrite Ef; left).
    apply list_elem_of_filter in Hk as [[wake Hth] Hk].
    destruct Hpool as [_ Htasks]. specialize (Htasks k Hk (ex_intro _ wake Hth)).
    apply list_elem_of_split in Hk as (before & after & ->).
    destruct (wk_tasks k) as [|[mid] ts] eqn:Ht; [done|].
    destruct (twait_and_fire w inbox n lp before after k mid ts wake rl dl Ht Hth) as (w' & t & Hf).
    eapply Hnext; [exact Hf|done|done|]. simpl. rewrite !wpending_split, Ht. simpl. lia.
Qed.

(** ** Reachable states *)

Lemma treachable_tinv w inbox s : treachable w inbox s → tinv s.
Proof. apply rtc_invariant; [apply tinv_step|split_and!; intros *; rewrite elem_of_nil; done]. Qed.

Lemma treachable_pool_inv w inbox s : treachable w inbox s → pool_inv s.
Proof. apply rtc_invariant; [apply pool_inv_step|split; [unfold busy, thread_pool_size; simpl; lia|set_solver]]. Qed.

Lemma treachable_tcount_inv w inbox s : treachable w inbox s → tcount_inv s.
Proof. apply rtc_invariant; [apply tcount_inv_step|split; [set_solver|done]]. Qed.

Lemma treachable_tonce w inbox s : treachable w inbox s → tonce s.
Proof. apply rtc_invariant; [apply tonce_step|split; [apply ledger_nil|done]]. Qed.

(** ** Properties *)

(** C7. With the handler's phases interleaved with the deletion threads and
    the clock, and the threads limited by anyio's pool: in every
    reachable state, each deletion recorded for request [n] is a
    [deleteMessage] request of the trace sent at least 60 seconds after
    request [n]'s response, which is in the trace too. *)
Theorem threads_grace_period w inbox s n mid t :
  treachable w inbox s →
  (n, mid, t) ∈ ts_deleted s →
  EvHttp t (delete_message_request cfg mid) ∈ w_trace (ts_world s) ∧
  ∃ t0 resp, (n, t0, resp) ∈ ts_responded s ∧
             EvRespond t0 resp ∈ w_trace (ts_world s) ∧ t0 + 60 ≤ t.
Proof.
  intros Hr Hd. destruct (treachable_tinv w inbox s Hr) as (_ & I2 & I3).
  destruct (I2 n mid t Hd) as (Hev & t0 & resp & Hin & Ht).
  split; [done|]. exists t0, resp. split; [done|]. split; [|exact Ht].
  by destruct (I3 n t0 resp Hin).
Qed.

(** C9. Every deletion sent was scheduled, and each at most once, with the
    interleavings: in every reachable state, the deletions sent for a
    request are a prefix of the tasks its handler scheduled, which are at
    most one, and every deletion sent belongs to an answered request. *)
Theorem threads_deletions_follow_schedule w inbox s :
  treachable w inbox s →
  (∀ k, k ∈ ts_workers s →
     deleted_of (wk_req k) (ts_deleted s) `prefix_of` wk_sched k ∧ (length (wk_sched k) ≤ 1)%nat) ∧
  (∀ n mid t, (n, mid, t) ∈ ts_deleted s → ∃ k, k ∈ ts_workers s ∧ wk_req k = n).
Proof.
  intros Hr. destruct (treachable_tonce w inbox s Hr) as [(_ & _ & L3 & L4) _].
  destruct (treachable_tcount_inv w inbox s Hr) as [K1 _].
  split; [|done]. intros k Hk. split; [rewrite (L4 k Hk); by eexists|by apply K1].
Qed.

(** C8. Every scheduled deletion is eventually sent, exactly once, with the
    interleavings and the pool: from any reachable state the event loop
    can finish its run and serve the inbox and the threads can finish, and
    then for every request the deletions sent are exactly the tasks its
    handler scheduled. *)
Theorem threads_all_deletions_sent w inbox s :
  treachable w inbox s →
  ∃ s', rtc tstep s s' ∧ ts_inbox s' = [] ∧ ts_loop s' = None ∧
    ∀ k, k ∈ ts_workers s' →
      wk_tasks k = [] ∧ deleted_of (wk_req k) (ts_deleted s') = wk_sched k.
Proof.
  intros Hr. destruct (tserve_all s) as (s1 & Hs1 & Hin1 & Hl1).
  assert (Hr1 : treachable w inbox s1) by (unfold treachable in *; by etrans).
  destruct (tfire_all s1 (treachable_pool_inv _ _ _ Hr1)) as (s2 & Hs2 & Hin2 & Hl2 & Hdone).
  assert (Hr2 : treachable w inbox s2) by (unfold treachable in *; by etrans).
  destruct (treachable_tonce w inbox s2 Hr2) as [(_ & _ & _ & L4) _].
  exists s2. split; [by etrans|]. split_and!; [by rewrite Hin2|by rewrite Hl2|].
  intros k Hk. split; [by apply Hdone|]. by rewrite L4, Hdone, app_nil_r.
Qed.

End Steps.

(** ** Witnesses, against the fixture collaborators *)
Import Fixtures.

Definition two_requests : list VideoRequest := [rq_audio; rq_audio].

(** Request 0 is served and its thread takes a token; request 1's
    handler starts; a minute passes, and request 0's deletion is sent
    while request 1's handler is still running. *)
Lemma interleaved_run :
  ∃ s, @treachable (mock_server ok_server) (mock_ydl "webm") test_config empty_world two_requests s ∧
       ts_loop s = Some (1%nat, FExtract rq_audio) ∧
       (0%nat, PInt 42, 60) ∈ ts_deleted s.
Proof.
  evar (s : TSys).
  assert (Hr : @treachable (mock_server ok_server) (mock_ydl "webm") test_config
                 empty_world two_requests s).
  { unfold s. eapply rtc_l; [apply tstep_start|].
    do 4 (eapply rtc_l; [eapply tstep_phase; [reflexivity|vm_compute; reflexivity]|]).
    eapply rtc_l; [apply tstep_finish|].
    eapply rtc_l; [eapply (tstep_acquire _ _ _ _ _ [] []); [reflexivity|reflexivity|vm_compute; lia]|].
    eapply rtc_l; [apply tstep_start|].
    eapply rtc_l; [apply (tstep_tick _ _ _ _ _ _ _ _ 60); lia|].
    eapply rtc_l; [eapply (tstep_fire _ _ _ _ _ [] []);
                   [reflexivity|reflexivity|vm_compute; discriminate|vm_compute; reflexivity]|].
    apply rtc_refl. }
  exists s. split; [exact Hr|]. split; [reflexivity|].
  unfold s. simpl. apply list_elem_of_In. simpl. left. reflexivity.
Qed.

Lemma threads_grace_period_witness :
  ∃ s, @treachable (mock_server ok_server) (mock_ydl "webm") test_config empty_world two_requests s ∧
       ts_loop s = Some (1%nat, FExtract rq_audio) ∧ (0%nat, PInt 42, 60) ∈ ts_deleted s ∧
       EvHttp 60 (delete_message_request test_config (PInt 42)) ∈ w_trace (ts_world s) ∧
       ∃ t0 resp, (0%nat, t0, resp) ∈ ts_responded s ∧
                  EvRespond t0 resp ∈ w_trace (ts_world s) ∧ t0 + 60 ≤ 60.
Proof.
  destruct interleaved_run as (s & Hr & Hl & Hd). exists s.
  split; [exact Hr|]. split; [exact Hl|]. split; [exact Hd|].
  exact (threads_grace_period _ _ _ _ _ _ _ Hr Hd).
Defined.

Lemma threads_deletions_follow_schedule_witness :
  ∃ s, @treachable (mock_server ok_server) (mock_ydl "webm") test_config empty_world two_requests s ∧ (0%nat, PInt 42, 60) ∈ ts_deleted s ∧
       (∀ k, k ∈ ts_workers s →
          deleted_of (wk_req k) (ts_deleted s) `prefix_of` wk_sched k ∧ (length (wk_sched k) ≤ 1)%nat) ∧
       (∀ n mid t, (n, mid, t) ∈ ts_deleted s → ∃ k, k ∈ ts_workers s ∧ wk_req k = n).
Proof.
  destruct interleaved_run as (s & Hr & _ & Hd). exists s.
  split; [exact Hr|]. split; [exact Hd|]. exact (threads_deletions_follow_schedule _ _ _ _ Hr).
Defined.

Lemma threads_all_deletions_sent_witness :
  @treachable (mock_server ok_server) (mock_ydl "webm") test_config empty_world two_requests (init_tsys empty_world two_requests) ∧
  ∃ s', @rtc _ (@tstep (mock_server ok_server) (mock_ydl "webm") test_config)
          (init_tsys empty_world two_requests) s' ∧
        ts_inbox s' = [] ∧ ts_loop s' = None ∧
        ∀ k, k ∈ ts_workers s' →
          wk_tasks k = [] ∧ deleted_of (wk_req k) (ts_deleted s') = wk_sched k.
Proof.
  assert (Hr : @treachable (mock_server ok_server) (mock_ydl "webm") test_config empty_world two_requests (init_tsys empty_world two_requests)) by apply rtc_refl.
  split; [exact Hr|]. exact (threads_all_deletions_sent _ _ _ _ Hr).
Defined.

End Threads.
