(* ===== verification/Rate.v ===== *)
(** * How fast the deletions can go: anyio's pool caps them at 40 a minute

    In [Threads] each deletion holds one of anyio's [thread_pool_size]
    tokens from the moment its thread starts its 60-second sleep
    ([tstep_acquire]) until it has sent its [deleteMessage]
    ([tstep_fire]).  A deletion sent at time [t] therefore held its token
    over the whole of [[t - 60, t)], and at no instant are more than 40
    tokens held.  The invariant [rate_inv] counts, for every instant [x],
    the tokens held at [x] by sleeping threads and the deletions sent
    whose last minute contains [x]; no step takes the count past the pool.

    The consequence, [deletions_per_minute]: in every reachable state, and
    in every window of 60 seconds, at most 40 deletions were sent.  With 41
    requests answered at once, one of their messages stays in the chat for
    at least two minutes instead of one. *)

From S2P Require Import Prelude PyStr PyValue PyRuntime Config Fixtures Telegram Extractor Handler Phases Ledger Threads.

Module Rate.
Import PyValue PyRuntime Config Telegram Handler Phases Ledger Threads.

(** A sleeping thread holds its token from [wake - grace_period] on. *)
Definition held (x : Z) (k : worker) : Prop :=
  match wk_thread k with
  | Some wake => wake - Z.of_nat grace_period ≤ x
  | None => False
  end.

#[export] Instance held_dec x k : Decision (held x k).
Proof. unfold held. destruct (wk_thread k); apply _. Defined.

(** A deletion sent at [t] held its token over [[t - grace_period, t)]. *)
Definition sent_in (x : Z) (d : nat * pyval * Z) : Prop :=
  d.2 - Z.of_nat grace_period ≤ x < d.2.

Definition window_load (x : Z) (wks : list worker) (dl : list (nat * pyval * Z)) : nat :=
  length (filter (held x) wks) + length (filter (sent_in x) dl).

Definition rate_inv (s : TSys) : Prop :=
  (∀ d, d ∈ ts_deleted s → d.2 ≤ w_clock (ts_world s)) ∧
  ∀ x, (window_load x (ts_workers s) (ts_deleted s) ≤ thread_pool_size)%nat.

(** ** Counting *)

Lemma count_split {A} (P : A → Prop) `{∀ a, Decision (P a)} before k after :
  length (filter P (before ++ k :: after)) =
    (length (filter P before) + (if decide (P k) then 1 else 0) + length (filter P after))%nat.
Proof. rewrite filter_app, filter_cons, length_app. case_decide; simpl; lia. Qed.

Lemma count_snoc {A} (P : A → Prop) `{∀ a, Decision (P a)} l a :
  length (filter P (l ++ [a])) = (length (filter P l) + (if decide (P a) then 1 else 0))%nat.
Proof. rewrite filter_app, filter_cons, filter_nil, length_app. case_decide; simpl; lia. Qed.

Lemma count_mono {A} (P Q : A → Prop) `{∀ a, Decision (P a), ∀ a, Decision (Q a)} l :
  (∀ a, P a → Q a) → (length (filter P l) ≤ length (filter Q l))%nat.
Proof.
  intros HPQ. induction l as [|a l IH]; [done|]. rewrite !filter_cons.
  repeat case_decide; simpl; try lia. naive_solver.
Qed.

Lemma held_busy x wks : (length (filter (held x) wks) ≤ busy wks)%nat.
Proof. apply count_mono. intros k. unfold held. destruct (wk_thread k); [by eexists|done]. Qed.

(** No deletion sent by [x] is in a window that starts at [x] or later. *)
Lemma sent_in_past x dl : (∀ d, d ∈ dl → d.2 ≤ x) → length (filter (sent_in x) dl) = 0%nat.
Proof.
  induction dl as [|d dl IH]; intros Hp; [done|]. rewrite filter_cons, decide_False.
  - apply IH. intros d' Hd'. apply Hp. set_solver.
  - unfold sent_in. specialize (Hp d ltac:(set_solver)). lia.
Qed.

Section Steps.
Context `{HttpTransport, YoutubeDL}.
Variable cfg : config.

Lemma rate_inv_step s s' : tstep cfg s s' → rate_inv s → rate_inv s'.
Proof.
  unfold rate_inv, window_load.
  destruct 1 as [w rq rest n wks rl dl|w inbox n m f f' w' wks rl dl Hdone Hp
                |w inbox n m resp wks rl dl|w inbox n lp before after k t ts rl dl Ht Hth Hb
                |w inbox n lp before after k mid ts wake rl dl w' Ht Hth Hwake Hd
                |w inbox n lp wks rl dl d Hd];
    cbn [ts_world ts_workers ts_deleted]; intros [Hc Hl].
  - done.
  - split; [|done]. pose proof (phase_mono cfg f w) as Hm. rewrite Hp in Hm.
    destruct Hm as [Hm _]. intros d Hdd. specialize (Hc d Hdd). simpl in Hm. lia.
  - split; [done|]. intros x. rewrite filter_app, filter_cons, decide_False by (intros Hh; exact Hh).
    rewrite filter_nil, app_nil_r. apply Hl.
  - split; [done|]. intros x. specialize (Hl x). rewrite count_split in Hl |- *.
    assert (Hk : ¬ held x k) by (unfold held; rewrite Hth; tauto). rewrite decide_False in Hl by done.
    unfold held at 2. cbn [wk_thread].
    case_decide as Hx; [|lia].
    rewrite (sent_in_past x dl) by (intros d Hdd; specialize (Hc d Hdd); lia).
    pose proof (held_busy x before). pose proof (held_busy x after).
    rewrite busy_split, Hth, decide_False in Hb by (by intros []). lia.
  - pose proof (delete_message_now_mono cfg mid w) as Hm. rewrite Hd in Hm. destruct Hm as [Hm _].
    simpl in Hm. split.
    + intros d [Hdd|Hdd%list_elem_of_singleton]%elem_of_app; [specialize (Hc d Hdd)|subst d]; simpl; lia.
    + intros x. specialize (Hl x). rewrite count_split in Hl |- *. rewrite count_snoc.
      rewrite (decide_False (P := held x (mk_worker _ _ None _))) by (intros Hh; exact Hh).
      assert (Hsh : sent_in x (wk_req k, mid, w_clock w) → held x k).
      { unfold sent_in, held. rewrite Hth. simpl. lia. }
      do 2 case_decide; try lia. naive_solver.
  - split; [|done]. intros d' Hdd. specialize (Hc d' Hdd). simpl. lia.
Qed.

Lemma treachable_rate_inv w inbox s : treachable cfg w inbox s → rate_inv s.
Proof.
  apply rtc_invariant; [apply rate_inv_step|].
  split; [set_solver|]. intros x. unfold window_load, thread_pool_size. simpl. lia.
Qed.

(** ** Properties *)

(** C25. anyio's pool bounds the rate of the deletions: in every reachable
    state of the thread model, in every window of 60 seconds, at most 40
    deletions were sent, however many requests were answered.  The 41st
    of 41 deletions scheduled at once is sent at least two minutes after
    its response, not one. *)
Theorem deletions_per_minute w inbox s (x : Z) :
  treachable cfg w inbox s →
  (length (filter (λ d : nat * pyval * Z, (x < d.2 ≤ x + 60)%Z) (ts_deleted s)) ≤ 40)%nat.
Proof.
  intros Hr. destruct (treachable_rate_inv w inbox s Hr) as [_ Hl]. specialize (Hl x).
  unfold window_load, thread_pool_size in Hl.
  rewrite (list_filter_iff _ (sent_in x)); [lia|]. intros d. unfold sent_in, grace_period. lia.
Qed.

End Steps.

(** ** Witness: the interleaved run of [Threads] *)
Import Fixtures.

Lemma deletions_per_minute_witness :
  ∃ s, @treachable (mock_server ok_server) (mock_ydl "webm") test_config empty_world two_requests s ∧
       (0%nat, PInt 42, 60) ∈ ts_deleted s ∧
       (length (filter (λ d : nat * pyval * Z, (0 < d.2 ≤ 0 + 60)%Z) (ts_deleted s)) ≤ 40)%nat.
Proof.
  destruct interleaved_run as (s & Hr & _ & Hd). exists s.
  split; [exact Hr|]. split; [exact Hd|]. exact (deletions_per_minute _ _ _ _ 0 Hr).
Defined.

End Rate.
