(* ===== verification/Server.v ===== *)
(** * The request cycle of FastAPI around [process_video]

    What the framework does with the endpoint (not code of this
    repository; modelled from Starlette's documented behaviour and §4.3,
    §5 of the specification): it gives the request a fresh
    [BackgroundTasks], calls the endpoint, sends its dict as the response,
    and only then runs the tasks the endpoint added, one after the other.
    Each task is a call of [delete_telegram_message].

    The end-to-end theorem [serve_process_video_spec] puts the pieces
    together: the answer is the handler's, and the requests sent after the
    response are exactly one [deleteMessage] per scheduled task (one on
    success, none on failure), each at least 60 seconds after the
    response.  [serve_orphans_document] follows one failure through the
    whole cycle: when [getFile] fails after [sendDocument] went through,
    nothing ever deletes the posted message. *)

From S2P Require Import Prelude PyStr PyValue PyRuntime Config Fixtures Telegram Extractor Handler.

Module Server.
Import PyValue PyRuntime Config Telegram Extractor Handler.
Local Open Scope py_scope.

Section WithServices.
Context `{HttpTransport, YoutubeDL}.
Variable cfg : config.

(** A task calls the function it was given with its argument. *)
Definition run_task (t : task) : Py unit :=
  match t with
  | DeleteTelegramMessage mid => delete_telegram_message cfg mid
  end.

(** Starlette runs the tasks in the order they were added. *)
Fixpoint run_tasks (ts : list task) : Py unit :=
  match ts with
  | [] => mret ()
  | t :: ts' => run_task t;; run_tasks ts'
  end.

(** One [POST /process-video]: fresh task list, endpoint, response, tasks. *)
Definition serve_process_video (request : VideoRequest) : Py pyval :=
  reset_tasks;;
  body ← process_video cfg request;
  emit (λ w, EvRespond (w_clock w) body);;
  ts ← get_tasks;
  run_tasks ts;;
  mret body.

(** The request a task sends. *)
Definition task_request (t : task) : http_request :=
  match t with
  | DeleteTelegramMessage mid => delete_message_request cfg mid
  end.

(** ** Running the tasks *)

Lemma delete_telegram_message_shape mid w :
  ∃ lvl msg, delete_telegram_message cfg mid w = (Ok (), after_delete cfg w mid lvl msg).
Proof.
  rewrite delete_telegram_message_run. destruct (transport _ _); eauto.
Qed.

(** The tasks [ts] take [grace_period] seconds each, never raise, and
    send exactly one request each, in order: the deletion of its message,
    none earlier than [grace_period] seconds after they start. *)
Lemma run_tasks_run ts w :
  ∃ post,
    run_tasks ts w =
      (Ok (), mk_world (w_fs w) (w_clock w + Z.of_nat grace_period * Z.of_nat (length ts))
                (w_trace w ++ post) (w_tasks w)) ∧
    http_requests post = map task_request ts ∧
    ∀ t rq, EvHttp t rq ∈ post → w_clock w + Z.of_nat grace_period ≤ t.
Proof.
  revert w. induction ts as [|[mid] ts IH]; intros w.
  - exists []. split; [|split; [reflexivity|intros ?? Hin; inversion Hin]].
    cbn [run_tasks length]. py_unfold. simpl. rewrite app_nil_r, Z.add_0_r. by destruct w.
  - destruct (delete_telegram_message_shape mid w) as (lvl & msg & Hd).
    destruct (IH (after_delete cfg w mid lvl msg)) as (post & Hrun & Hreq & Ht).
    exists ([EvHttp (w_clock w + Z.of_nat grace_period) (delete_message_request cfg mid);
             EvLog (w_clock w + Z.of_nat grace_period) lvl msg] ++ post).
    split; [|split].
    + cbn [run_tasks run_task]. py_unfold. rewrite Hd. cbn. rewrite Hrun.
      unfold after_delete. simpl. rewrite <- app_assoc. f_equal. f_equal. lia.
    + unfold http_requests in *. rewrite omap_app, Hreq. reflexivity.
    + intros t rq Hin. apply elem_of_app in Hin as [Hin|Hin].
      * apply elem_of_cons in Hin as [[= -> _]|Hin]; [lia|].
        apply elem_of_cons in Hin as [Hin|Hin]; [done|set_solver].
      * specialize (Ht _ _ Hin). unfold after_delete in Ht. simpl in Ht. lia.
Qed.

(** The client gets what the handler answered on the fresh task list. *)
Lemma serve_process_video_result rq w :
  (serve_process_video rq w).1 =
    (process_video cfg rq (mk_world (w_fs w) (w_clock w) (w_trace w) [])).1.
Proof.
  unfold serve_process_video. py_unfold. cbn.
  destruct (process_video cfg rq _) as [[resp|e] w1]; cbn; [|done].
  match goal with
  | |- context [run_tasks ?ts ?w'] => by destruct (run_tasks_run ts w') as (post & -> & _)
  end.
Qed.

(** ** The request cycle *)

(** C1. End to end: the endpoint runs on the request's fresh task list and
    never raises; the client gets the handler's answer, which meets the
    contract of §4.4; after the response the process sends exactly the
    requests of the scheduled tasks (by the contract: one [deleteMessage]
    of the uploaded message on success, nothing when the extraction or
    the upload failed), each at least 60 seconds after the response. *)
Theorem serve_process_video_spec rq w :
  let w0 := mk_world (w_fs w) (w_clock w) (w_trace w) [] in
  ∃ resp w1 post,
    process_video cfg rq w0 = (Ok resp, w1) ∧
    handler_contract (phase_outcomes cfg rq w0).1 (phase_outcomes cfg rq w0).2
      resp (w_tasks w1) ∧
    (serve_process_video rq w).1 = Ok resp ∧
    w_trace (serve_process_video rq w).2 = w_trace w1 ++ [EvRespond (w_clock w1) resp] ++ post ∧
    http_requests post = map task_request (w_tasks w1) ∧
    ∀ t rqx, EvHttp t rqx ∈ post → w_clock w1 + 60 ≤ t.
Proof.
  intros w0.
  destruct (process_video_contract cfg rq w0) as (resp & new & Hr & Ht & Hc).
  destruct (process_video cfg rq w0) as [o w1] eqn:E. simpl in Hr, Ht. subst o.
  set (w1' := mk_world (w_fs w1) (w_clock w1) (w_trace w1 ++ [EvRespond (w_clock w1) resp]) (w_tasks w1)).
  destruct (run_tasks_run (w_tasks w1) w1') as (post & Hrun & Hreq & Htime).
  exists resp, w1, post. rewrite Ht.
  split; [done|]. split; [done|].
  unfold serve_process_video. py_unfold. cbn. fold w0. rewrite E. cbn.
  fold w1'. rewrite <- Ht, Hrun. cbn.
  split; [done|]. split; [by rewrite <- app_assoc|]. split; [done|].
  exact Htime.
Qed.

(** C12. The document posted when [getFile] fails is never deleted (a
    defect of lines 56-63 with lines 100-108): when yt-dlp wrote the file,
    [sendDocument] accepted it and returned its [file_id] and
    [message_id], and [getFile] then answers a body without ["result"]
    (whatever its status), the whole request cycle is exactly: the two
    Bot API requests, the error log, the error answer, and nothing after
    it.  The message id is lost with the [KeyError], no task is
    scheduled, so no [deleteMessage] is ever sent for the posted
    message, and the local file stays on disk. *)
Theorem serve_orphans_document rq w info fn w1 r1 b1 res doc fid mid r2 b2 :
  download_media (url rq) (format_type rq) (mk_world (w_fs w) (w_clock w) (w_trace w) []) = (Ok (info, fn), w1) →
  fn ∈ w_fs w1 →
  transport (send_document_request cfg fn) w1 = Ok r1 →
  status_code r1 = 200 →
  resp_json r1 = Some b1 →
  getitem b1 "result" = Ok res →
  getitem res "document" = Ok doc →
  getitem doc "file_id" = Ok fid →
  getitem res "message_id" = Ok mid →
  transport (get_file_request cfg fid) (sent w1 (send_document_request cfg fn)) = Ok r2 →
  resp_json r2 = Some b2 →
  getitem b2 "result" = Raise (KeyError (PStr "result")) →
  serve_process_video rq w =
    (Ok (error_body (KeyError (PStr "result"))),
     mk_world (w_fs w1) (w_clock w1)
       (w_trace w1 ++ [EvHttp (w_clock w1) (send_document_request cfg fn);
                       EvHttp (w_clock w1) (get_file_request cfg fid);
                       EvLog (w_clock w1) ERROR (str_exc (KeyError (PStr "result")));
                       EvRespond (w_clock w1) (error_body (KeyError (PStr "result")))])
       [] ).
Proof.
  intros Hd Hfs Hs1 Hst Hj1 Hr Hdoc Hfid Hmid Hs2 Hj2 Hr2.
  pose proof (download_media_tasks (url rq) (format_type rq) (mk_world (w_fs w) (w_clock w) (w_trace w) [])) as Ht.
  rewrite Hd in Ht. unfold same_tasks in Ht. simpl in Ht.
  unfold serve_process_video, process_video, upload_to_telegram. py_run.
  unfold sent. cbn. rewrite <- Ht. cbn. by rewrite <- !app_assoc.
Qed.

End WithServices.

(** ** Witness: a Bot API whose [getFile] answers 400 *)
Import Fixtures.

Definition orphan_server : HttpTransport := mock_server (mk_server_params 200 400 200).

Lemma serve_orphans_document_witness :
  let w1 := (@download_media (mock_ydl "webm") (url rq_audio) (format_type rq_audio)
               (mk_world (w_fs empty_world) (w_clock empty_world) (w_trace empty_world) [])).2 in
  @serve_process_video orphan_server (mock_ydl "webm") test_config rq_audio empty_world =
    (Ok (error_body (KeyError (PStr "result"))),
     mk_world (w_fs w1) (w_clock w1)
       (w_trace w1 ++ [EvHttp (w_clock w1) (send_document_request test_config "abc.mp3");
                       EvHttp (w_clock w1) (get_file_request test_config (PStr "F1"));
                       EvLog (w_clock w1) ERROR (str_exc (KeyError (PStr "result")));
                       EvRespond (w_clock w1) (error_body (KeyError (PStr "result")))])
       []).
Proof.
  intros w1.
  eapply (@serve_orphans_document orphan_server (mock_ydl "webm") test_config rq_audio empty_world
            (mock_info "webm") "abc.mp3" w1 (send_document_answer (mk_server_params 200 400 200))
            _ _ _ _ _ (get_file_answer (mk_server_params 200 400 200)));
    first [reflexivity | apply bool_decide_unpack; vm_compute; reflexivity].
Defined.

End Server.
