(* ===== verification/App.v ===== *)
(** * The HTTP surface: routes and the validation of the request body

    What FastAPI does with a request before and around the code of
    [src/main.py] (framework behaviour, modelled from FastAPI's and
    pydantic's documented behaviour; the routes and the model are the
    code's):
    - the routes of lines 65 and 69, [GET /health] and
      [POST /process-video]; any other path answers 404, another method on
      a known path 405;
    - the body of [POST /process-video] is validated against the pydantic
      model [VideoRequest] of lines 32-34 (pydantic 2 in lax mode on JSON
      input): both fields are required and must be JSON strings, other keys
      are ignored.  A body that fails answers 422 with one error per field
      under ["detail"], and the endpoint does not run;
    - a valid body is handed to [Server.serve_process_video]: the endpoint
      runs, its dict is sent with status 200, then the background tasks run.
    The JSON text itself is not modelled: a body is the [pyval] it decodes
    to, or [None] when the request has none; FastAPI reports an absent
    body and a JSON [null] alike, as a missing body. *)

From S2P Require Import Prelude PyStr PyValue PyRuntime Config Fixtures Telegram Extractor Handler Server.

Module App.
Import PyValue PyRuntime Config Handler Server.
Local Open Scope py_scope.

(** One entry of pydantic's [ValidationError.errors()], as FastAPI lists
    it under ["detail"]. *)
Record validation_error := mk_validation_error {
  ve_type : string;
  ve_loc : list string;
  ve_msg : string;
  ve_input : pyval
}.

Definition validation_error_json (e : validation_error) : pyval :=
  PDict [("type", PStr (ve_type e)); ("loc", PList (PStr <$> ve_loc e));
         ("msg", PStr (ve_msg e)); ("input", ve_input e)].

(** A field annotated [str] (lines 33-34): a JSON string is taken as is,
    another value is a [string_type] error, an absent key a [missing]
    error whose input is the whole body. *)
Definition validate_str_field (kvs : list (string * pyval)) (name : string)
    : validation_error + string :=
  match dict_lookup name kvs with
  | Some (PStr s) => inr s
  | Some v => inl (mk_validation_error "string_type" ["body"; name] "Input should be a valid string" v)
  | None => inl (mk_validation_error "missing" ["body"; name] "Field required" (PDict kvs))
  end.

Definition field_errors {A} (r : validation_error + A) : list validation_error :=
  match r with
  | inl e => [e]
  | inr _ => []
  end.

(** Lines 32-34: the body as a [VideoRequest], or the errors of all its
    fields in the model's order. *)
Definition validate_video_request (body : option pyval) : list validation_error + VideoRequest :=
  match body with
  | None | Some PNone => inl [mk_validation_error "missing" ["body"] "Field required" PNone]
  | Some (PDict kvs) =>
      match validate_str_field kvs "url", validate_str_field kvs "format_type" with
      | inr u, inr f => inr (mk_video_request u f)
      | ru, rf => inl (field_errors ru ++ field_errors rf)
      end
  | Some v =>
      inl [mk_validation_error "model_attributes_type" ["body"]
             "Input should be a valid dictionary or object to extract fields from" v]
  end.

(** An HTTP request as the application receives it: the method is the
    upper-case string of the ASGI scope. *)
Record app_request := mk_app_request {
  req_method : string;
  req_path : string;
  req_body : option pyval
}.

Definition detail (v : pyval) : pyval := PDict [("detail", v)].

Definition respond (status : Z) (body : pyval) : Py (Z * pyval) :=
  emit (λ w, EvRespond (w_clock w) body);;
  mret (status, body).

Section WithServices.
Context `{HttpTransport, YoutubeDL}.
Variable cfg : config.

(** Lines 65 and 69: the two routes, and FastAPI's answers around them:
    Starlette's router answers 405 when the path of a route matches but
    not its method (FastAPI adds no [HEAD] to a [GET] route), 404 when no
    path matches. *)
Definition handle (req : app_request) : Py (Z * pyval) :=
  if String.eqb (req_path req) "/health" then
    if String.eqb (req_method req) "GET" then body ← health_check; respond 200 body
    else respond 405 (detail (PStr "Method Not Allowed"))
  else if String.eqb (req_path req) "/process-video" then
    if String.eqb (req_method req) "POST" then
        match validate_video_request (req_body req) with
        | inl errs => respond 422 (detail (PList (validation_error_json <$> errs)))
        | inr rq => body ← serve_process_video cfg rq; mret (200, body)
        end
    else respond 405 (detail (PStr "Method Not Allowed"))
  else respond 404 (detail (PStr "Not Found")).

(** ** Properties *)

Lemma respond_run st body w :
  respond st body w =
    (Ok (st, body), mk_world (w_fs w) (w_clock w) (w_trace w ++ [EvRespond (w_clock w) body]) (w_tasks w)).
Proof. reflexivity. Qed.

Lemma validate_str_field_ok kvs name s :
  validate_str_field kvs name = inr s ↔ dict_lookup name kvs = Some (PStr s).
Proof.
  unfold validate_str_field.
  destruct (dict_lookup name kvs) as [[| | | s' | |]|]; split; congruence.
Qed.

(** C20. A dict body validates exactly when its ["url"] and ["format_type"]
    are strings, whatever else it holds, and the request carries them. *)
Theorem validate_video_request_spec kvs rq :
  validate_video_request (Some (PDict kvs)) = inr rq ↔
    dict_lookup "url" kvs = Some (PStr (url rq)) ∧
    dict_lookup "format_type" kvs = Some (PStr (format_type rq)).
Proof.
  rewrite <- !validate_str_field_ok. simpl.
  destruct (validate_str_field kvs "url") as [eu|u], (validate_str_field kvs "format_type") as [ef|f];
    destruct rq as [u' f']; simpl; split; try (intros [? ?]; discriminate); try discriminate.
  - by intros [= -> ->].
  - by intros [[= ->] [= ->]].
Qed.

(** C10. The status of [POST /process-video] is 200 or 422, never a server
    error: 200 exactly when the body validates, with the handler's
    envelope; 422 otherwise, with the validation errors. *)
Theorem handle_process_video_status body w :
  ∃ st resp, (handle (mk_app_request "POST" "/process-video" body) w).1 = Ok (st, resp) ∧
    ((st = 200 ∧ envelope_type resp ∧ ∃ rq, validate_video_request body = inr rq) ∨
     (st = 422 ∧ ∃ errs, validate_video_request body = inl errs ∧
                         resp = detail (PList (validation_error_json <$> errs)))).
Proof.
  unfold handle. cbn [req_path req_method req_body].
  destruct (validate_video_request body) as [errs|rq] eqn:Hv.
  - eexists _, _. split; [reflexivity|]. right. eauto.
  - set (w0 := mk_world (w_fs w) (w_clock w) (w_trace w) []).
    pose proof (serve_process_video_result cfg rq w) as Hres. fold w0 in Hres.
    destruct (process_video_contract cfg rq w0) as (resp & new & Hr & _ & Hc).
    rewrite Hr in Hres. destruct (handler_contract_shape _ _ _ _ Hc) as [Henv _].
    change (String.eqb "/process-video" "/health") with false.
    change (String.eqb "/process-video" "/process-video") with true.
    change (String.eqb "POST" "POST") with true.
    py_unfold. cbv beta iota. destruct (serve_process_video cfg rq w) as [o w1]. simpl in Hres. subst o.
    eexists _, _. split; [reflexivity|]. left. eauto.
Qed.

End WithServices.

End App.
