(* ===== verification/Cors.v ===== *)
(** * The CORS middleware of lines 21-27

    [app.add_middleware(CORSMiddleware, ...)] puts Starlette's
    [CORSMiddleware] around the routes of [App]: lines 21-27 give its
    settings ([app_cors]); what it does with them is Starlette's code
    (framework behaviour, modelled from its [CORSMiddleware]: the
    settings it derives in [__init__], [__call__], [preflight_response],
    [send] and [allow_explicit_origin]):
    - a request without an [Origin] header goes to the application as is;
    - an [OPTIONS] request with [Origin] and
      [Access-Control-Request-Method] is a preflight: the middleware
      answers it itself, 200 ["OK"] or 400 ["Disallowed CORS ..."], and the
      application does not run;
    - any other request goes to the application, and the middleware adds
      its headers to the response: [Access-Control-Allow-Origin: *] and
      [Access-Control-Allow-Credentials: true], and, when the request
      carries a cookie, the request's origin instead of [*] with
      [Vary: Origin].
    Header names are lower case, as ASGI hands them over and as Starlette
    sends them.  The headers of the application's own responses
    ([content-type], [content-length], [allow]) are not modelled; none of
    them is one the middleware reads or sets.  [allow_origin_regex] is not
    modelled: lines 21-27 leave it unset. *)

From Stdlib Require Import Ascii.
From stdpp Require Import pretty.
From S2P Require Import Prelude PyStr PyValue PyRuntime Config Fixtures Telegram Extractor Handler Server App.

Module Cors.
Import PyValue PyRuntime Config Handler App.
Local Open Scope py_scope.

(** ** Strings as Python handles them *)

Fixpoint str_join (sep : string) (ps : list string) : string :=
  match ps with
  | [] => ""
  | [p] => p
  | p :: ps' => p +:+ sep +:+ str_join sep ps'
  end.

(** [str.lower] on ASCII letters. *)
Definition lower_ascii (a : ascii) : ascii :=
  let n := N_of_ascii a in
  if (65 <=? n)%N && (n <=? 90)%N then ascii_of_N (n + 32) else a.

Fixpoint lower (s : string) : string :=
  match s with
  | EmptyString => EmptyString
  | String a s' => String (lower_ascii a) (lower s')
  end.

(** [str.strip()]: the ASCII white space at both ends. *)
Definition is_space (a : ascii) : bool :=
  existsb (Ascii.eqb a) [" "; "009"; "010"; "011"; "012"; "013"]%char.

Fixpoint drop_space (l : list ascii) : list ascii :=
  match l with
  | a :: l' => if is_space a then drop_space l' else l
  | [] => []
  end.

Definition strip (s : string) : string :=
  String.string_of_list_ascii (rev (drop_space (rev (drop_space (String.list_ascii_of_string s))))).

(** [sorted] on strings: code point order. *)
Fixpoint insert_str (x : string) (l : list string) : list string :=
  match l with
  | [] => [x]
  | y :: l' => if String.ltb y x then y :: insert_str x l' else x :: l
  end.

Definition sort_str (l : list string) : list string := foldr insert_str [] l.

(** ** Headers *)

Definition headers := list (string * string).

(** [Headers.get] and [in]: the first header of that name. *)
Fixpoint hdr_get (k : string) (hs : headers) : option string :=
  match hs with
  | [] => None
  | (k', v) :: hs' => if String.eqb k' k then Some v else hdr_get k hs'
  end.

Definition hdr_has (k : string) (hs : headers) : bool := if hdr_get k hs is Some _ then true else false.

(** [headers[k] = v]: the value replaced in place, or a new header last. *)
Fixpoint hdr_set (k v : string) (hs : headers) : headers :=
  match hs with
  | [] => [(k, v)]
  | (k', v') :: hs' => if String.eqb k' k then (k', v) :: hs' else (k', v') :: hdr_set k v hs'
  end.

(** ** Settings *)

Record cors_settings := mk_cors_settings {
  allow_origins : list string;
  allow_credentials : bool;
  allow_methods : list string;
  allow_headers : list string;
  expose_headers : list string;
  max_age : N
}.

(** Lines 21-27; [expose_headers] and [max_age] keep Starlette's
    defaults. *)
Definition app_cors : cors_settings :=
  mk_cors_settings ["*"] true ["*"] ["*"] [] 600.

Definition ALL_METHODS : list string := ["DELETE"; "GET"; "HEAD"; "OPTIONS"; "PATCH"; "POST"; "PUT"].
Definition SAFELISTED_HEADERS : list string := ["Accept"; "Accept-Language"; "Content-Language"; "Content-Type"].

(** What [CORSMiddleware.__init__] derives from the settings. *)
Definition methods_of (c : cors_settings) : list string :=
  if bool_decide ("*" ∈ allow_methods c) then ALL_METHODS else allow_methods c.

Definition all_origins (c : cors_settings) : bool := bool_decide ("*" ∈ allow_origins c).
Definition all_headers (c : cors_settings) : bool := bool_decide ("*" ∈ allow_headers c).

Definition headers_of (c : cors_settings) : list string :=
  sort_str (remove_dups (SAFELISTED_HEADERS ++ allow_headers c)).

Definition explicit_origin (c : cors_settings) : bool := negb (all_origins c) || allow_credentials c.

Definition simple_headers (c : cors_settings) : headers :=
  (if all_origins c then [("access-control-allow-origin", "*")] else []) ++
  (if allow_credentials c then [("access-control-allow-credentials", "true")] else []) ++
  (if expose_headers c is [] then [] else [("access-control-expose-headers", str_join ", " (expose_headers c))]).

Definition preflight_headers (c : cors_settings) : headers :=
  (if explicit_origin c then [("vary", "Origin")] else [("access-control-allow-origin", "*")]) ++
  [("access-control-allow-methods", str_join ", " (methods_of c));
   ("access-control-max-age", pretty (max_age c))] ++
  (if all_headers c then [] else [("access-control-allow-headers", str_join ", " (headers_of c))]) ++
  (if allow_credentials c then [("access-control-allow-credentials", "true")] else []).

Definition is_allowed_origin (c : cors_settings) (origin : string) : bool :=
  all_origins c || bool_decide (origin ∈ allow_origins c).

(** ** The middleware *)

(** An HTTP request as it reaches the middleware. *)
Record http_in := mk_http_in {
  in_method : string;
  in_path : string;
  in_headers : headers;
  in_body : option pyval
}.

Definition cors_response : Type := Z * headers * pyval.

(** [preflight_response]: the origin, the method and the headers asked
    for are checked in turn, and the answer lists what failed. *)
Definition preflight_response (c : cors_settings) (origin meth : string) (hs : headers) : Py cors_response :=
  let h0 := preflight_headers c in
  let '(h1, f1) :=
    if is_allowed_origin c origin
    then ((if explicit_origin c then hdr_set "access-control-allow-origin" origin h0 else h0), [])
    else (h0, ["origin"]) in
  let f2 := if bool_decide (meth ∈ methods_of c) then [] else ["method"] in
  let '(h2, f3) :=
    match hdr_get "access-control-request-headers" hs with
    | Some rh =>
        if all_headers c then (hdr_set "access-control-allow-headers" rh h1, [])
        else if forallb (λ h, bool_decide (strip h ∈ lower <$> headers_of c)) (PyStr.split ","%char (lower rh))
        then (h1, []) else (h1, ["headers"])
    | None => (h1, [])
    end in
  match f1 ++ f2 ++ f3 with
  | [] => '(st, b) ← respond 200 (PStr "OK"); mret (st, h2, b)
  | fs => '(st, b) ← respond 400 (PStr ("Disallowed CORS " +:+ str_join ", " fs)); mret (st, h2, b)
  end.

(** [allow_explicit_origin]: the origin, and [Origin] added to [Vary]. *)
Definition allow_explicit_origin (h : headers) (origin : string) : headers :=
  let h' := hdr_set "access-control-allow-origin" origin h in
  match hdr_get "vary" h' with
  | Some v => hdr_set "vary" (v +:+ ", Origin") h'
  | None => hdr_set "vary" "Origin" h'
  end.

(** [send]: the headers of the response's start message. *)
Definition cors_send (c : cors_settings) (origin : string) (hs : headers) (h : headers) : headers :=
  let h1 := foldl (λ acc kv, hdr_set kv.1 kv.2 acc) h (simple_headers c) in
  if all_origins c && hdr_has "cookie" hs then allow_explicit_origin h1 origin
  else if negb (all_origins c) && is_allowed_origin c origin then allow_explicit_origin h1 origin
  else h1.

Section WithServices.
Context `{HttpTransport, YoutubeDL}.
Variable cfg : config.

(** [__call__]: around the application of [App.handle]. *)
Definition cors_app (c : cors_settings) (req : http_in) : Py cors_response :=
  let app := handle cfg (mk_app_request (in_method req) (in_path req) (in_body req)) in
  match hdr_get "origin" (in_headers req) with
  | None => '(st, b) ← app; mret (st, [], b)
  | Some origin =>
      match String.eqb (in_method req) "OPTIONS", hdr_get "access-control-request-method" (in_headers req) with
      | true, Some meth => preflight_response c origin meth (in_headers req)
      | _, _ => '(st, b) ← app; mret (st, cors_send c origin (in_headers req) [], b)
      end
  end.

(** Lines 18-27: the application is the routes behind the middleware. *)
Definition asgi_app (req : http_in) : Py cors_response := cors_app app_cors req.

(** ** Properties *)

Lemma app_cors_settings :
  all_origins app_cors = true ∧ all_headers app_cors = true ∧ explicit_origin app_cors = true ∧
  methods_of app_cors = ALL_METHODS ∧
  preflight_headers app_cors =
    [("vary", "Origin"); ("access-control-allow-methods", "DELETE, GET, HEAD, OPTIONS, PATCH, POST, PUT");
     ("access-control-max-age", "600"); ("access-control-allow-credentials", "true")] ∧
  simple_headers app_cors = [("access-control-allow-origin", "*"); ("access-control-allow-credentials", "true")].
Proof. split_and!; vm_compute; reflexivity. Qed.

(** C23. All origins, methods and headers are permitted (§6): a preflight
    request, on any path, is answered by the middleware alone, 200 ["OK"]
    for each of the seven methods Starlette knows and 400 for any other
    (an unknown or lower-case method), with the request's own origin, the
    credentials allowed and the headers asked for echoed back.  The
    application does not run: the one event is the answer. *)
Theorem cors_preflight_permits_all path hs body origin meth w :
  hdr_get "origin" hs = Some origin →
  hdr_get "access-control-request-method" hs = Some meth →
  asgi_app (mk_http_in "OPTIONS" path hs body) w =
    let text := if bool_decide (meth ∈ ALL_METHODS) then "OK" else "Disallowed CORS method" in
    (Ok ((if bool_decide (meth ∈ ALL_METHODS) then 200 else 400),
         [("vary", "Origin"); ("access-control-allow-methods", "DELETE, GET, HEAD, OPTIONS, PATCH, POST, PUT");
          ("access-control-max-age", "600"); ("access-control-allow-credentials", "true");
          ("access-control-allow-origin", origin)] ++
         (if hdr_get "access-control-request-headers" hs is Some r
          then [("access-control-allow-headers", r)] else []),
         PStr text),
     mk_world (w_fs w) (w_clock w) (w_trace w ++ [EvRespond (w_clock w) (PStr text)]) (w_tasks w)).
Proof.
  intros Ho Hm. destruct app_cors_settings as (Ha & Hh & He & Hme & Hp & _).
  unfold asgi_app, cors_app. cbn [in_headers in_method]. rewrite Ho, Hm. cbn -[preflight_response].
  unfold preflight_response, is_allowed_origin. rewrite Ha, He, Hh, Hme, Hp. cbn.
  destruct (hdr_get "access-control-request-headers" hs), (bool_decide (meth ∈ ALL_METHODS)); reflexivity.
Qed.

(** C24. The middleware changes nothing of what the application does to
    any request that is not a preflight: the status, the body and the
    world (the handler's requests, files, background work and answer) are
    those of [App.handle].  It only adds headers: none without an
    [Origin]; otherwise [Allow-Origin: *] and the credentials allowed,
    and, when the request carries a cookie, the request's own origin
    instead, whatever it is. *)
Theorem cors_simple_transparent meth path hs body w :
  (String.eqb meth "OPTIONS" = false ∨ hdr_get "access-control-request-method" hs = None) →
  asgi_app (mk_http_in meth path hs body) w =
    match handle cfg (mk_app_request meth path body) w with
    | (Ok (st, b), w') =>
        (Ok (st,
             match hdr_get "origin" hs with
             | None => []
             | Some origin =>
                 if hdr_has "cookie" hs
                 then [("access-control-allow-origin", origin); ("access-control-allow-credentials", "true");
                       ("vary", "Origin")]
                 else [("access-control-allow-origin", "*"); ("access-control-allow-credentials", "true")]
             end, b), w')
    | (Raise e, w') => (Raise e, w')
    end.
Proof.
  intros Hnp. destruct app_cors_settings as (Ha & _ & _ & _ & _ & Hs).
  unfold asgi_app, cors_app. cbn [in_headers in_method in_path in_body].
  assert (Happ : ∀ hd : headers,
    ('(st, b) ← handle cfg (mk_app_request meth path body); mret (st, hd, b)) w =
      match handle cfg (mk_app_request meth path body) w with
      | (Ok (st, b), w') => (Ok (st, hd, b), w')
      | (Raise e, w') => (Raise e, w')
      end).
  { intros hd. py_unfold. by destruct (handle _ _ w) as [[[st b]|e] w']. }
  destruct (hdr_get "origin" hs) as [origin|]; [|apply Happ].
  assert (Hsend : cors_send app_cors origin hs [] =
            if hdr_has "cookie" hs
            then [("access-control-allow-origin", origin); ("access-control-allow-credentials", "true");
                  ("vary", "Origin")]
            else [("access-control-allow-origin", "*"); ("access-control-allow-credentials", "true")]).
  { unfold cors_send, allow_explicit_origin. rewrite Hs, Ha. by destruct (hdr_has "cookie" hs). }
  rewrite Hsend.
  destruct Hnp as [Hm|Hm]; [rewrite Hm|rewrite Hm; destruct (String.eqb meth "OPTIONS")]; apply Happ.
Qed.

End WithServices.

(** ** Witnesses *)
Import Fixtures.

(** A preflight from any site for a JSON [POST /process-video]. *)
Definition preflight_hs : headers :=
  [("origin", "https://other.example"); ("access-control-request-method", "POST");
   ("access-control-request-headers", "content-type")].

Lemma cors_preflight_permits_all_witness :
  hdr_get "origin" preflight_hs = Some "https://other.example" ∧
  hdr_get "access-control-request-method" preflight_hs = Some "POST" ∧
  @asgi_app (mock_server ok_server) (mock_ydl "webm") test_config
    (mk_http_in "OPTIONS" "/process-video" preflight_hs None) empty_world =
    (Ok (200, [("vary", "Origin"); ("access-control-allow-methods", "DELETE, GET, HEAD, OPTIONS, PATCH, POST, PUT");
               ("access-control-max-age", "600"); ("access-control-allow-credentials", "true");
               ("access-control-allow-origin", "https://other.example");
               ("access-control-allow-headers", "content-type")], PStr "OK"),
     mk_world (w_fs empty_world) (w_clock empty_world)
       (w_trace empty_world ++ [EvRespond (w_clock empty_world) (PStr "OK")]) (w_tasks empty_world)).
Proof.
  assert (Ho : hdr_get "origin" preflight_hs = Some "https://other.example") by reflexivity.
  assert (Hm : hdr_get "access-control-request-method" preflight_hs = Some "POST") by reflexivity.
  split; [exact Ho|]. split; [exact Hm|].
  rewrite (@cors_preflight_permits_all (mock_server ok_server) (mock_ydl "webm") test_config "/process-video" preflight_hs None _ _ empty_world Ho Hm).
  vm_compute. reflexivity.
Defined.

(** [GET /health] from another site with its cookies: the origin is
    echoed with the credentials allowed. *)
Definition cookie_hs : headers := [("origin", "https://other.example"); ("cookie", "session=1")].

Lemma cors_simple_transparent_witness :
  (String.eqb "GET" "OPTIONS" = false ∨ hdr_get "access-control-request-method" cookie_hs = None) ∧
  @asgi_app (mock_server ok_server) (mock_ydl "webm") test_config
    (mk_http_in "GET" "/health" cookie_hs None) empty_world =
    (Ok (200, [("access-control-allow-origin", "https://other.example");
               ("access-control-allow-credentials", "true"); ("vary", "Origin")],
         PDict [("status", PStr "active"); ("message", PStr "Backend is running")]),
     mk_world (w_fs empty_world) (w_clock empty_world)
       (w_trace empty_world ++ [EvRespond (w_clock empty_world)
                                  (PDict [("status", PStr "active"); ("message", PStr "Backend is running")])])
       (w_tasks empty_world)).
Proof.
  assert (Hnp : String.eqb "GET" "OPTIONS" = false ∨ hdr_get "access-control-request-method" cookie_hs = None)
    by (left; reflexivity).
  split; [exact Hnp|].
  rewrite (@cors_simple_transparent (mock_server ok_server) (mock_ydl "webm") test_config "GET" "/health" cookie_hs None empty_world Hnp).
  vm_compute. reflexivity.
Defined.

End Cors.
